(** * attack_lab_stats.py: a shallow embedding and its checked properties

    The script is a straight-line pipeline: fetch the scoreboard page,
    check its title, read the table, normalise the phase cells, compute the
    text report, draw the score histogram, and draw the furthest-phase bar
    chart.  Each step is embedded below next to the source lines it follows.

    Conventions of the model.
    - The scores, and every number computed from them or from the counts,
      are binary64 floats with their own arithmetic, NaN and infinities
      (Rocq's primitive floats).  A number in a phase cell is only compared
      with the penalized score and printed; it is kept as the rational it
      is.
    - The answers of the world and of the libraries the script calls
      ([urlopen], [pd.read_html], [datetime.strptime], [str] of a float) are
      the fields of an environment record; everything the script itself
      does with them is defined here.
    - A file is recorded by its name and the data written to it, not by its
      bytes: the report as the record of the numbers it prints, an image as
      the values handed to the plotting call.  The plotting and saving
      calls themselves are taken to succeed. *)

From Stdlib Require Import QArith Ascii String PrimFloat Uint63.
From stdpp Require Import gmap strings pretty list fin_maps.

Local Open Scope string_scope.

(** ** Text operations of the Python runtime *)

Module Text.

(** [s.startswith(p)], the test behind every literal match below. *)
Fixpoint starts_with (p s : string) : bool :=
  match p, s with
  | EmptyString, _ => true
  | String a p', String b s' => if Ascii.eqb a b then starts_with p' s' else false
  | String _ _, EmptyString => false
  end.

(** [re.search(p, s)] for a pattern [p] without metacharacters, and [p in s]:
    some suffix of [s] starts with [p]. *)
Fixpoint contains (p s : string) : bool :=
  starts_with p s ||
  match s with
  | EmptyString => false
  | String _ s' => contains p s'
  end.

(** [s.replace(old, new)] for a non-empty [old]: occurrences are found left
    to right and do not overlap.  [skip] counts the characters of an
    occurrence already replaced that are still to be passed over. *)
Fixpoint replace_from (old new : string) (skip : nat) (s : string) : string :=
  match s with
  | EmptyString => EmptyString
  | String c s' =>
      match skip with
      | S k => replace_from old new k s'
      | O =>
          if starts_with old s
          then new +:+ replace_from old new (String.length old - 1) s'
          else String c (replace_from old new 0 s')
      end
  end.

Definition replace (old new s : string) : string := replace_from old new 0 s.

(** The part of [s] before its first newline: what [.] can match. *)
Fixpoint line_of (s : string) : string :=
  match s with
  | EmptyString => EmptyString
  | String c s' => if Ascii.eqb c "010"%char then EmptyString else String c (line_of s')
  end.

(** A greedy any-characters group followed by the literal [lit], matched at
    the start of [l]: the group is the longest prefix of [l] that [lit]
    follows (the star gives characters back one at a time, so the last
    occurrence of [lit] wins). *)
Fixpoint greedy_before (lit l : string) : option string :=
  match l with
  | EmptyString => if starts_with lit EmptyString then Some EmptyString else None
  | String c l' =>
      match greedy_before lit l' with
      | Some g => Some (String c g)
      | None => if starts_with lit l then Some EmptyString else None
      end
  end.

Fixpoint drop (n : nat) (s : string) : string :=
  match n, s with
  | O, _ => s
  | S n', String _ s' => drop n' s'
  | S _, EmptyString => EmptyString
  end.

(** [s.endswith(p)] *)
Definition ends_with (p s : string) : bool :=
  (String.length p <=? String.length s)%nat &&
  String.eqb (drop (String.length s - String.length p) s) p.

(** [re.search] of a pattern made of the literal [pre], one greedy
    any-characters group and the literal [post]: the leftmost position where
    [pre] matches and [post] follows on the same line; the result is
    [group(1)]. *)
Fixpoint search_group (pre post s : string) : option string :=
  let here :=
    if starts_with pre s
    then greedy_before post (line_of (drop (String.length pre) s))
    else None in
  match here with
  | Some g => Some g
  | None =>
      match s with
      | EmptyString => None
      | String _ s' => search_group pre post s'
      end
  end.

End Text.

(** ** Helper lists and dictionaries (source lines 51-61) *)

(** The five phase columns, ["Phase 1"] to ["Phase 5"]. *)
Inductive phase := Phase1 | Phase2 | Phase3 | Phase4 | Phase5.

#[global] Instance phase_eq_dec : EqDecision phase.
Proof. solve_decision. Defined.

Definition phases : list phase := [Phase1; Phase2; Phase3; Phase4; Phase5].

(** The three dictionaries are total on [phases], so they are functions. *)
Definition points_per_phase (p : phase) : string :=
  match p with
  | Phase1 => "15" | Phase2 => "25" | Phase3 => "25" | Phase4 => "35" | Phase5 => "20"
  end.

Definition float_penalized_points_per_phase (p : phase) : Q :=
  match p with
  | Phase1 => 1275 # 100 | Phase2 => 2125 # 100 | Phase3 => 2125 # 100
  | Phase4 => 2975 # 100 | Phase5 => 17 # 1
  end.

Definition str_penalized_points_per_phase (p : phase) : string :=
  match p with
  | Phase1 => "12.75" | Phase2 => "21.25" | Phase3 => "21.25"
  | Phase4 => "29.75" | Phase5 => "17"
  end.

(** ** The scoreboard dataframe *)

(** A cell as [pd.read_html] delivers it: an integer or a float in a column
    that holds numbers only, the text of the page in any other column.  (An
    empty cell, NaN, goes through the script exactly as the text ["nan"].) *)
Inductive cell :=
| CInt (z : Z)
| CFloat (q : Q)
| CStr (s : string).

(** One row: the five phase cells and the score. *)
Record row (C S : Type) := Row {
  phase1 : C; phase2 : C; phase3 : C; phase4 : C; phase5 : C;
  Score : S
}.
Arguments Row {C S}.
Arguments phase1 {C S}.
Arguments phase2 {C S}.
Arguments phase3 {C S}.
Arguments phase4 {C S}.
Arguments phase5 {C S}.
Arguments Score {C S}.

(** [r[phase]] *)
Definition get {C S} (p : phase) (r : row C S) : C :=
  match p with
  | Phase1 => phase1 r | Phase2 => phase2 r | Phase3 => phase3 r
  | Phase4 => phase4 r | Phase5 => phase5 r
  end.

(** The same function applied to each phase cell of a row, each with its own
    column name, and another one to the score. *)
Definition map_row {C D S T} (f : phase -> C -> D) (g : S -> T) (r : row C S) : row D T :=
  Row (f Phase1 (phase1 r)) (f Phase2 (phase2 r)) (f Phase3 (phase3 r))
      (f Phase4 (phase4 r)) (f Phase5 (phase5 r)) (g (Score r)).

(** A dataframe: the rows, each under its index label. *)
Abbreviation frame C S := (list (nat * row C S)).

(** The row as the page has it; the score is the float that [float] reads
    from the text of its cell - NaN for an empty cell or ["nan"], an
    infinity for ["inf"] - and [None] when [float] rejects the text. *)
Definition raw_row : Type := row cell (option float).


(** A fresh frame gets the index 0, 1, 2, ... *)
Definition with_range_index {C S} (rows : list (row C S)) : frame C S :=
  zip (seq 0 (length rows)) rows.

(** [df[phase]] as the list of its values, and [df.index]. *)
Definition column {C S} (p : phase) (df : frame C S) : list C :=
  map (fun ir => get p (snd ir)) df.

Definition index {C S} (df : frame C S) : list nat := df.*1.

(** ** Normalisation (source lines 70-80) *)

Section Normalise.

(** [str(x)] for a float [x], as the Python runtime prints it. *)
Variable float_str : Q -> string.

(** [.replace(float_penalized_points_per_phase, "Penalized")]: in column
    [p], a value equal to the number [float_penalized_points_per_phase[p]]
    becomes the text ["Penalized"].  A text never equals a number. *)
Definition replace_float (p : phase) (c : cell) : cell :=
  match c with
  | CInt z =>
      if Qeq_bool (inject_Z z) (float_penalized_points_per_phase p)
      then CStr "Penalized" else c
  | CFloat q =>
      if Qeq_bool q (float_penalized_points_per_phase p)
      then CStr "Penalized" else c
  | CStr _ => c
  end.

(** [.replace(str_penalized_points_per_phase, "Penalized")]: in column [p],
    a text equal to [str_penalized_points_per_phase[p]] becomes
    ["Penalized"].  A number never equals a text. *)
Definition replace_str (p : phase) (c : cell) : cell :=
  match c with
  | CStr s =>
      if String.eqb s (str_penalized_points_per_phase p)
      then CStr "Penalized" else c
  | _ => c
  end.

(** [.astype(str)] on one value. *)
Definition astype_str (c : cell) : string :=
  match c with
  | CInt z => pretty z
  | CFloat q => float_str q
  | CStr s => s
  end.

(** Line 75, [.str.replace(".0", "")] on one value.  The pattern is taken
    literally, as [str.replace] does (the default of pandas 2). *)
Definition strip_point_zero (s : string) : string := Text.replace ".0" "" s.

(** What lines 71-75 make of the cell [c] of column [p]. *)
Definition normalize_cell (p : phase) (c : cell) : string :=
  strip_point_zero (astype_str (replace_str p (replace_float p c))).

(** Lines 71-75 on a row and on the frame; the score is not touched. *)
Definition normalize_row {S} (r : row cell S) : row string S :=
  map_row normalize_cell (fun s => s) r.

Definition normalize {S} (df : frame cell S) : frame string S :=
  map (fun ir => (fst ir, normalize_row (snd ir))) df.

(** Whether the cell is what the author calls a penalized score of column
    [p]: the number, or its text. *)
Definition equals_penalized (p : phase) (c : cell) : bool :=
  match c with
  | CInt z => Qeq_bool (inject_Z z) (float_penalized_points_per_phase p)
  | CFloat q => Qeq_bool q (float_penalized_points_per_phase p)
  | CStr s => String.eqb s (str_penalized_points_per_phase p)
  end.

End Normalise.

(** ** Statistics (source lines 97-129) *)

(** [Series.value_counts()]: each value that occurs, with how often. *)
Definition value_counts (col : list string) : gmap string nat :=
  foldr (fun v m => <[v := S (default 0 (m !! v))]> m) ∅ col.

(** [.reindex(labels, fill_value=fill)]: exactly the given labels, each with
    its old entry or, without one, with [fill]. *)
Definition reindex (labels : list string) (fill : nat) (ser : gmap string nat)
  : gmap string nat :=
  list_to_map (map (fun l => (l, default fill (ser !! l))) labels).

(** Line 103. *)
Definition phase_count_ser (p : phase) (df : frame string float) : gmap string nat :=
  reindex [points_per_phase p; "0"; "Penalized"; "Too Late"; "Invalid"] 0
          (value_counts (column p df)).

(** The four numbers lines 106-110 print for one phase.  Every label read
    is one the series was reindexed to, so the reads cannot fail. *)
Record phase_lines := PhaseLines {
  targets : nat;
  penalized : nat;
  too_late : nat;
  invalid : nat
}.

Definition phase_stats (p : phase) (df : frame string float) : phase_lines :=
  let ser := phase_count_ser p df in
  PhaseLines (ser !!! points_per_phase p + ser !!! "Penalized")
             (ser !!! "Penalized") (ser !!! "Too Late") (ser !!! "Invalid").

(** Line 113: the rows whose score is 0.0. *)
Definition no_phases_count (df : frame string float) : nat :=
  length (filter (fun ir => PrimFloat.eqb (Score (snd ir)) 0 = true) df).

(** An exception nobody catches is named by its class; [exit(msg)] keeps
    its message. *)
Inductive abort :=
| SystemExit (msg : string)
| Uncaught (exc : string).

(** What a call that can raise gives back. *)
Inductive answer (A : Type) :=
| Returns (a : A)
| Raises (e : abort).
Arguments Returns {A}.
Arguments Raises {A}.

(** Line 116, [df[phases].apply(pd.Series.value_counts)]: one series of
    counts per phase column, side by side.  The index of the result is the
    union of the values that occur; a value missing from one column has no
    entry (NaN) there. *)
Definition count_df (df : frame string float) : list (gmap string nat) :=
  map (fun p => value_counts (column p df)) phases.

(** [count_df.loc[label]]: the row of that label, a KeyError when the label
    is not in the index. *)
Definition loc (label : string) (cdf : list (gmap string nat))
  : answer (list (option nat)) :=
  if existsb (fun ser => bool_decide (is_Some (ser !! label))) cdf
  then Returns (map (fun ser => ser !! label) cdf)
  else Raises (Uncaught "KeyError").

(** [.sum()] of such a row skips the missing entries. *)
Definition nansum (r : list (option nat)) : nat :=
  foldr (fun o acc => default 0 o + acc) 0 r.

(** [int(count_df.loc[label].sum())], lines 119-121. *)
Definition total_of (label : string) (df : frame string float) : answer nat :=
  match loc label (count_df df) with
  | Returns r => Returns (nansum r)
  | Raises e => Raises e
  end.

(** Descriptive statistics of a float series.  pandas leaves the NaN
    values out of every statistic ([skipna]): they count as 0 in a sum and
    are not counted as values. *)
Definition is_nan (x : float) : bool := negb (PrimFloat.eqb x x).

Definition notna (l : list float) : list float :=
  filter (fun x => is_nan x = false) l.

Definition fill_zero (l : list float) : list float :=
  map (fun x => if is_nan x then 0%float else x) l.

(** The sum of a column, added up from its first value on.  (numpy adds in
    this order up to eight values; a longer column is added in blocks, so
    the last bits of its sum may differ.) *)
Definition float_sum (l : list float) : float := foldl PrimFloat.add 0%float l.

(** The float of a count; counts are far below 2^63. *)
Definition of_nat (n : nat) : float := PrimFloat.of_uint63 (Uint63.of_Z (Z.of_nat n)).

Definition float_max (a b : float) : float := if PrimFloat.ltb a b then b else a.

Definition float_min (a b : float) : float := if PrimFloat.ltb b a then b else a.

(** [Series.max()] and [Series.min()]: NaN when no value is left. *)
Definition series_max (l : list float) : float :=
  match notna l with
  | [] => nan
  | x :: t => foldl float_max x t
  end.

Definition series_min (l : list float) : float :=
  match notna l with
  | [] => nan
  | x :: t => foldl float_min x t
  end.

(** [Series.mean()]: NaN when no value is left. *)
Definition series_mean (l : list float) : float :=
  match length (notna l) with
  | O => nan
  | S n => (float_sum (fill_zero l) / of_nat (S n))%float
  end.

(** [Series.var()], the sample variance with divisor [n - 1]: NaN when
    fewer than two values are left to divide by. *)
Definition series_var (l : list float) : float :=
  let count := length (notna l) in
  if (count <=? 1)%nat then nan
  else
    let avg := (float_sum (fill_zero l) / of_nat count)%float in
    (float_sum (map (fun x => if is_nan x then 0 else (avg - x) * (avg - x)) l)
     / of_nat (count - 1))%float.

(** [Series.std()]: the square root of the variance. *)
Definition series_std (l : list float) : float := PrimFloat.sqrt (series_var l).

(** The six numbers of lines 124-129. *)
Record standard_stats := StandardStats {
  highest : float;
  lowest : float;
  score_range : float;
  score_mean : float;
  score_variance : float;
  score_std : float
}.

Definition scores {C} (df : frame C float) : list float := map (fun ir => Score (snd ir)) df.

Definition standard (df : frame string float) : standard_stats :=
  let s := scores df in
  StandardStats (series_max s) (series_min s)
                (series_max s - series_min s)%float
                (series_mean s) (series_var s) (series_std s).

(** The parsed time of the last update. *)
Record datetime := DateTime {
  year : nat; month : nat; day : nat; hour : nat; minute : nat; second : nat
}.

(** Everything the text of [stats] is made of, in the order it is added. *)
Record report := Report {
  updated : datetime;
  total_targets : nat;
  per_phase : list (phase * phase_lines);
  no_phases : nat;
  total_penalized : nat;
  total_late : nat;
  total_invalid : nat;
  standard_lines : standard_stats
}.

(** Lines 98-129.  The three totals are evaluated in this order, and the
    first label that is missing from [count_df] raises. *)
Definition stats (date_and_time : datetime) (df : frame string float) : answer report :=
  let lines := map (fun p => (p, phase_stats p df)) (rev phases) in
  match total_of "Penalized" df with
  | Raises e => Raises e
  | Returns pen =>
      match total_of "Too Late" df with
      | Raises e => Raises e
      | Returns late =>
          match total_of "Invalid" df with
          | Raises e => Raises e
          | Returns inv =>
              Returns (Report date_and_time (length (index df)) lines
                              (no_phases_count df) pen late inv (standard df))
          end
      end
  end.

(** ** The run: state, aborts and written files *)

(** What a written file holds. *)
Inductive bar := Bar {
  bar_phase : phase;
  bar_percent : float;
  bar_count : nat
}.

Inductive artifact :=
| StatsText (r : report)
| HistogramImage (x : list float) (bins : list Z)
| BarplotImage (bars : list bar).

(** The one mutable variable that matters, [scoreboard_df], and the files
    written so far, oldest first. *)
Record state := State {
  scoreboard_df : frame string float;
  files : list (string * artifact)
}.

(** A step of the script: it reads and changes the state, and either gives
    a value or aborts the run.  The state at the abort is kept, so the
    files a failed run leaves behind can be read off. *)
Definition M (A : Type) : Type := state -> answer A * state.

Definition ret {A} (a : A) : M A := fun st => (Returns a, st).

Definition bind {A B} (m : M A) (k : A -> M B) : M B :=
  fun st =>
    match m st with
    | (Returns a, st') => k a st'
    | (Raises e, st') => (Raises e, st')
    end.

Notation "'do' x <- m ; k" := (bind m (fun x => k))
  (at level 10, x name, m at level 100, k at level 200).
Notation "'step' m ; k" := (bind m (fun _ => k))
  (at level 10, m at level 100, k at level 200).

Definition raise {A} (e : abort) : M A := fun st => (Raises e, st).

(** [exit(msg)] *)
Definition exit {A} (msg : string) : M A := raise (SystemExit msg).

(** A call into a library or the world. *)
Definition call {A} (r : answer A) : M A := fun st => (r, st).

Definition read_df : M (frame string float) := fun st => (Returns (scoreboard_df st), st).

Definition assign_df (df : frame string float) : M unit :=
  fun st => (Returns tt, State df (files st)).

(** [open(name, "w").write(...)] and [plt.savefig(name)]. *)
Definition write_file (name : string) (a : artifact) : M unit :=
  fun st => (Returns tt, State (scoreboard_df st) (files st ++ [(name, a)])).

(** [for x in l: ...] whose body appends one value to a list. *)
Fixpoint for_collect {A B} (l : list A) (body : A -> M B) : M (list B) :=
  match l with
  | [] => ret []
  | x :: l' => do b <- body x; do bs <- for_collect l' body; ret (b :: bs)
  end.

(** ** Scores histogram (source lines 139-162) *)

(** [np.arange(0, 121, 5)] *)
Definition histogram_bins : list Z := map (fun i => (5 * Z.of_nat i)%Z) (seq 0 25).

(** The plot is drawn from the [Score] column of [scoreboard_df] as it is
    when line 141 runs. *)
Definition scores_histogram : M unit :=
  do df <- read_df;
  write_file "scores_histogram.png" (HistogramImage (scores df) histogram_bins).

(** ** Passed phases barplot (source lines 168-211) *)

(** The test of line 176 on one value of column [p]. *)
Definition passed_test (p : phase) (v : string) : bool :=
  String.eqb v (points_per_phase p) || String.eqb v (str_penalized_points_per_phase p).

(** [passed_phase_df.index]: the labels of the rows that pass the test. *)
Definition passed_phase_index (p : phase) (df : frame string float) : list nat :=
  index (filter (fun ir => passed_test p (get p (snd ir)) = true) df).

(** [df.drop(index=labels)]: the rows under other labels. *)
Definition drop_index {C S} (labels : list nat) (df : frame C S) : frame C S :=
  filter (fun ir => fst ir ∉ labels) df.

(** The body of the loop of lines 174-180; its value is what is appended to
    [phases_count]. *)
Definition furthest_step (p : phase) : M nat :=
  do df <- read_df;
  let passed := passed_phase_index p df in
  step assign_df (drop_index passed df);
  ret (length passed).

(** Lines 171-180. *)
Definition phases_count_loop : M (list nat) := for_collect (rev phases) furthest_step.

(** [numpy.rint]: the nearest whole number, a tie going to the even one.
    Below 2^52 adding and taking away 2^52 rounds a float in just this way;
    from 2^52 on, and for NaN, the float is its own rounding. *)
Definition two52 : float := 4503599627370496%float.

Definition rint (x : float) : float :=
  if PrimFloat.leb 0 x then
    if PrimFloat.ltb x two52 then ((x + two52) - two52)%float else x
  else
    if PrimFloat.ltb (- two52) x then (- ((- x + two52) - two52))%float else x.

(** [.round(1)] as numpy does it: times 10, [rint], divided by 10. *)
Definition round1 (x : float) : float := (rint (x * 10) / 10)%float.

(** Lines 183-185: the [Proportion] and [Percent] columns of [phases_df].
    The division of two integer columns is the division of their floats;
    0 / 0 is NaN. *)
Definition proportion (counts : list nat) : list float :=
  map (fun c => (of_nat c / of_nat (sum_list counts))%float) counts.

Definition percent (counts : list nat) : list float :=
  map (fun x => (x * 100)%float) (proportion counts).

(** Line 198: the label of each bar, the rounded percentage over the count. *)
Definition bars_labels (counts : list nat) : list bar :=
  map (fun x => Bar (fst (fst x)) (round1 (snd (fst x))) (snd x))
      (combine (combine phases (percent counts)) counts).

Definition phases_barplot : M unit :=
  do phases_count <- phases_count_loop;
  write_file "phases_barplot.png" (BarplotImage (bars_labels (rev phases_count))).

(** ** The whole script *)

(** The answers of the network and of the libraries. *)
Record world := World {
  (** [urlopen(url).read().decode("utf-8")] *)
  urlopen : string -> answer string;
  (** [pd.read_html(html, match="#")[0].drop(labels=["#", "Date"], axis=1)],
      the rows in the order of the page *)
  read_html : string -> answer (list raw_row);
  (** [datetime.strptime(text, "%a %b %d %X %Y")] *)
  strptime : string -> answer datetime;
  (** [str] of a float *)
  float_str : Q -> string
}.

(** Line 33; the script asks for it to be replaced before a run. *)
Definition url : string := "http://systems3.cs.uic.edu:15513/scoreboard".

Definition missing_url_message : string :=
  "Missing URL: add URL to the line 13 (or 11) of the script".

Definition wrong_page_message : string :=
  "Incorrect URL or the webpage is not available: check URL manually!".

Definition title_marker : string := "<title>Attack Lab Scoreboard</title>".

(** Line 80, [.astype(float)] on the score column: a ValueError at the
    first score whose text [float] rejects. *)
Fixpoint score_astype_float {C} (df : frame C (option float)) : answer (frame C float) :=
  match df with
  | [] => Returns []
  | (i, r) :: df' =>
      match Score r with
      | None => Raises (Uncaught "ValueError")
      | Some q =>
          match score_astype_float df' with
          | Returns t => Returns ((i, map_row (fun _ c => c) (fun _ => q) r) :: t)
          | Raises e => Raises e
          end
      end
  end.

(** Lines 68-80: from the rows of the page to [scoreboard_df]. *)
Definition load (fs : Q -> string) (rows : list raw_row) : answer (frame string float) :=
  score_astype_float (normalize fs (with_range_index rows)).

(** Line 87: the match of the time stamp; [None.group] is an AttributeError. *)
Definition updated_stamp (html : string) : M string :=
  match Text.search_group "updated: " " (updated" html with
  | Some g => ret g
  | None => raise (Uncaught "AttributeError")
  end.

(** Lines 97-133. *)
Definition write_stats (date_and_time : datetime) : M unit :=
  do df <- read_df;
  do text <- call (stats date_and_time df);
  write_file "project_stats.txt" (StatsText text).

(** The three sections that write a file, in the order of the source. *)
Definition outputs (date_and_time : datetime) : M unit :=
  step write_stats date_and_time;
  step scores_histogram;
  phases_barplot.

(** Lines 40: the fetch step. *)
Definition fetch (w : world) (u : string) : M string := call (urlopen w u).

(** Lines 44-45: the check of the title. *)
Definition validate (html : string) : M unit :=
  if Text.contains title_marker html then ret tt else exit wrong_page_message.

(** Lines 87-211: the script once [scoreboard_df] is built. *)
Definition after_load (w : world) (html : string) : M unit :=
  do stamp <- updated_stamp html;
  do date_and_time <- call (strptime w stamp);
  outputs date_and_time.

(** Lines 44-211: the script once the page is there. *)
Definition after_fetch (w : world) (html : string) : M unit :=
  step validate html;
  do rows <- call (read_html w html);
  do df <- call (load (float_str w) rows);
  step assign_df df;
  after_load w html.

(** The script from its first line to its last, for the configured [u]. *)
Definition script (w : world) (u : string) : M unit :=
  step (if String.eqb u "INSERT URL HERE" then exit missing_url_message else ret tt);
  do html <- fetch w u;
  after_fetch w html.

(** A run starts with no frame and no file. *)
Definition initial : state := State [] [].

Definition main (w : world) (u : string) : answer unit * state := script w u initial.

(** ** The loop and the counts, as functions of the frame *)

(** The loop of lines 174-180 over the phases [ps]: the counts it appends
    and the frame it leaves. *)
Fixpoint furthest (ps : list phase) (df : frame string float) : list nat * frame string float :=
  match ps with
  | [] => ([], df)
  | p :: ps' =>
      let passed := passed_phase_index p df in
      let rest := furthest ps' (drop_index passed df) in
      (length passed :: fst rest, snd rest)
  end.

(** How often [v] stands in a column, and in the five phase columns
    together. *)
Definition occurrences (v : string) (col : list string) : nat :=
  length (filter (fun x => x = v) col).

Definition cells_with (v : string) (df : frame string float) : nat :=
  sum_list (map (fun p => occurrences v (column p df)) phases).

(** The five labels line 103 reindexes the counts of phase [p] to. *)
Definition labels_of (p : phase) : list string :=
  [points_per_phase p; "0"; "Penalized"; "Too Late"; "Invalid"].

(** Whether a row passes the test of line 176 for phase [p]. *)
Definition passes (p : phase) (ir : nat * row string float) : Prop :=
  passed_test p (get p (snd ir)) = true.

#[global] Instance passes_dec (p : phase) (ir : nat * row string float) : Decision (passes p ir).
Proof. unfold passes. apply _. Defined.

(** The rows that pass the test for [p] and for none of the phases the
    loop has gone through [before] it. *)
Definition counted (p : phase) (before : list phase) (df : frame string float) : nat :=
  length (filter (fun ir => passes p ir /\ Forall (fun q => ~ passes q ir) before) df).

(** One such number for each phase of [ps], in the order of the loop. *)
Fixpoint counts_of (before ps : list phase) (df : frame string float) : list nat :=
  match ps with
  | [] => []
  | p :: ps' => counted p before df :: counts_of (p :: before) ps' df
  end.

(** ** Sample inputs

    A world to run the script in: one page, one table, and a float printer
    that is right on the short decimals a scoreboard holds. *)

Module Sample.

(** The digits behind the point of [r / d], for [0 <= r < d]. *)
Fixpoint fraction_digits (fuel : nat) (r d : Z) : string :=
  match fuel with
  | O => ""
  | S k =>
      if (r =? 0)%Z then ""
      else pretty (r * 10 / d)%Z +:+ fraction_digits k (r * 10 mod d)%Z d
  end.

(** ["15.0"] for 15, ["12.75"] for 51/4. *)
Definition float_str (q : Q) : string :=
  let n := Z.abs (Qnum q) in
  let d := Z.pos (Qden q) in
  let frac := fraction_digits 17 (n mod d)%Z d in
  (if (Qnum q <? 0)%Z then "-" else "") +:+ pretty (n / d)%Z +:+ "." +:+
  (if String.eqb frac "" then "0" else frac).

Definition page : string :=
  "<html><head><title>Attack Lab Scoreboard</title></head><body>" +:+
  "<h2>Attack Lab Scoreboard</h2>This page contains the latest information. " +:+
  "Last updated: Mon Nov  6 10:15:00 2023 (updated every 20 secs)</body></html>".

(** The same page without the line of the last update. *)
Definition page_without_stamp : string :=
  "<html><head><title>Attack Lab Scoreboard</title></head><body>" +:+
  "<h2>Attack Lab Scoreboard</h2>This page contains the latest information." +:+
  "</body></html>".

Definition some_other_page : string :=
  "<html><head><title>404 Not Found</title></head><body></body></html>".

Definition when : datetime := DateTime 2023 11 6 10 15 0.

(** The world in which the URL answers with [body] and the table of the
    page holds [rows]. *)
Definition world_of (body : answer string) (rows : list raw_row) : world :=
  World (fun _ => body) (fun _ => Returns rows) (fun _ => Returns when) float_str.

(** One target that solved phase 1 late enough to be penalized and nothing
    else. *)
Definition penalized_once : raw_row :=
  Row (CFloat (1275 # 100)) (CFloat (0 # 1)) (CFloat (0 # 1)) (CFloat (0 # 1)) (CFloat (0 # 1))
      (Some 12.75%float).

(** One target with full credit in phases 1 to 4 and the penalty in
    phase 5. *)
Definition penalized_last : raw_row :=
  Row (CInt 15) (CInt 25) (CInt 25) (CInt 35) (CInt 17) (Some 117%float).

(** One target with full credit everywhere. *)
Definition full_marks : raw_row :=
  Row (CInt 15) (CInt 25) (CInt 25) (CInt 35) (CInt 20) (Some 120%float).

(** One target with a penalized, a late and an invalid phase. *)
Definition mixed : raw_row :=
  Row (CStr "12.75") (CStr "Too Late") (CStr "Invalid") (CStr "0") (CStr "0")
      (Some 12.75%float).

(** Three targets whose furthest phases are 1, 2 and 3; the second one
    passed phase 1 with the penalty and missed phases 3 and 4. *)
Definition only_first : raw_row :=
  Row (CStr "15") (CStr "0") (CStr "0") (CStr "0") (CStr "0") (Some 15%float).

Definition up_to_second : raw_row :=
  Row (CStr "12.75") (CStr "25") (CStr "Too Late") (CStr "Invalid") (CStr "0")
      (Some 37.75%float).

Definition up_to_third : raw_row :=
  Row (CStr "15") (CStr "25") (CStr "25") (CStr "0") (CStr "0") (Some 65%float).

Definition thirds : list raw_row := [only_first; up_to_second; up_to_third].

(** One target alone, with full credit in phase 1, the penalty in phase 2,
    then late, invalid and nothing. *)
Definition lone : raw_row :=
  Row (CStr "15") (CStr "21.25") (CStr "Too Late") (CStr "Invalid") (CStr "0")
      (Some 36.25%float).

(** Two targets that both passed phase 1 and nothing else, the first one
    with the penalty. *)
Definition two_in_phase_1 : list raw_row := [mixed; only_first].

(** A target whose phase-5 cell reads ["17.0"]. *)
Definition seventeen_point_zero : raw_row :=
  Row (CStr "15") (CStr "25") (CStr "25") (CStr "35") (CStr "17.0") (Some 117%float).

(** [scoreboard_df] for the table [rows]. *)
Definition frame_of (rows : list raw_row) : frame string float :=
  match load float_str rows with
  | Returns df => df
  | Raises _ => []
  end.

End Sample.

(** * Properties *)

(** ** Text *)

Section TextFacts.

Local Open Scope char_scope.

Lemma starts_with_point_zero c s :
  Text.starts_with ".0" (String c s) = Ascii.eqb "." c && Text.starts_with "0" s.
Proof. cbn [Text.starts_with]. destruct (Ascii.eqb "." c); reflexivity. Qed.

Lemma starts_with_point c s :
  Text.starts_with "." (String c s) = Ascii.eqb "." c.
Proof. cbn [Text.starts_with]. destruct (Ascii.eqb "." c); reflexivity. Qed.

Lemma contains_cons p c s :
  Text.contains p (String c s) = Text.starts_with p (String c s) || Text.contains p s.
Proof. reflexivity. Qed.

Lemma replace_from_cons_keep old new c s :
  Text.starts_with old (String c s) = false ->
  Text.replace_from old new 0 (String c s) = String c (Text.replace_from old new 0 s).
Proof. intros H. simpl Text.replace_from. rewrite H. reflexivity. Qed.

(** A text without the pattern is not changed. *)
Lemma replace_absent old new s :
  Text.contains old s = false -> Text.replace old new s = s.
Proof.
  unfold Text.replace. induction s as [|c s IH]; intros H; [reflexivity|].
  rewrite contains_cons in H. apply orb_false_elim in H as [Hhere Hlater].
  rewrite replace_from_cons_keep by exact Hhere. f_equal. auto.
Qed.

(** The first occurrence of [".0"] goes, and the scan goes on behind it. *)
Lemma strip_first_occurrence a b :
  Text.contains ".0" a = false ->
  strip_point_zero (a +:+ ".0" +:+ b)%string = (a +:+ strip_point_zero b)%string.
Proof.
  unfold strip_point_zero, Text.replace.
  induction a as [|c a IH]; intros H.
  - reflexivity.
  - rewrite contains_cons in H. apply orb_false_elim in H as [Hhere Hlater].
    change (String c a +:+ ".0" +:+ b)%string with (String c (a +:+ ".0" +:+ b))%string.
    rewrite replace_from_cons_keep.
    + rewrite IH by exact Hlater. reflexivity.
    + rewrite starts_with_point_zero in Hhere |- *.
      destruct (Ascii.eqb "." c); [|reflexivity]. simpl andb in Hhere |- *.
      destruct a as [|d a]; [reflexivity|]. exact Hhere.
Qed.

Lemma no_point_no_point_zero s :
  Text.contains "." s = false -> Text.contains ".0" s = false.
Proof.
  induction s as [|c s IH]; intros H; [reflexivity|].
  rewrite contains_cons in H |- *. apply orb_false_elim in H as [Hhere Hlater].
  rewrite IH by exact Hlater. rewrite starts_with_point_zero.
  rewrite starts_with_point in Hhere. rewrite Hhere. reflexivity.
Qed.

Lemma append_empty_r s : (s +:+ "")%string = s.
Proof.
  induction s as [|c s IH]; [reflexivity|].
  change (String c (s +:+ "") = String c s)%string. f_equal. exact IH.
Qed.

End TextFacts.

Example float_str_whole : Sample.float_str 15 = "15.0".
Proof. reflexivity. Qed.

Example float_str_quarters : Sample.float_str (1275 # 100) = "12.75".
Proof. reflexivity. Qed.

Example stamp_of_page :
  Text.search_group "updated: " " (updated" Sample.page = Some "Mon Nov  6 10:15:00 2023".
Proof. reflexivity. Qed.

Example run_lone_ok :
  fst (main (Sample.world_of (Returns Sample.page) [Sample.lone]) url) = Returns tt.
Proof. vm_compute. reflexivity. Qed.

(** ** Normalisation *)

Lemma get_normalize_row {S} fs (p : phase) (r : row cell S) :
  get p (normalize_row fs r) = normalize_cell fs p (get p r).
Proof. destruct p; reflexivity. Qed.

Lemma penalized_is_no_penalized_text (p : phase) :
  String.eqb "Penalized" (str_penalized_points_per_phase p) = false.
Proof. destruct p; reflexivity. Qed.

Lemma normalize_cell_penalized fs (p : phase) (c : cell) :
  equals_penalized p c = true -> normalize_cell fs p c = "Penalized".
Proof.
  intros H. unfold normalize_cell.
  assert (Hrep : replace_str p (replace_float p c) = CStr "Penalized").
  { destruct c as [z|q|s]; unfold equals_penalized in H;
      unfold replace_float; try rewrite H; unfold replace_str.
    - now rewrite penalized_is_no_penalized_text.
    - now rewrite penalized_is_no_penalized_text.
    - now rewrite H. }
  rewrite Hrep. reflexivity.
Qed.

Lemma penalized_cell_of_a_row {S} (fs : Q -> string) (p : phase) (r : row cell S) :
  equals_penalized p (get p r) = true -> get p (normalize_row fs r) = "Penalized".
Proof. intros H. rewrite get_normalize_row. exact (normalize_cell_penalized fs p _ H). Qed.

Lemma normalize_cell_other_text fs (p : phase) (s : string) :
  s <> str_penalized_points_per_phase p ->
  normalize_cell fs p (CStr s) = strip_point_zero s.
Proof.
  intros H. unfold normalize_cell, replace_float, replace_str.
  destruct (String.eqb_spec s (str_penalized_points_per_phase p)); [contradiction|reflexivity].
Qed.

(** C2, as the spec has it, fails in its last clause: the phase-5 text
    ["17.0"] is not the configured text ["17"], line 71 leaves it, line 75
    takes its [".0"] away, and the raw penalized text ["17"] stands in the
    normalised row. *)
Lemma C2_other_text_becomes_the_penalized_text :
  equals_penalized Phase5 (get Phase5 Sample.seventeen_point_zero) = false /\
  get Phase5 (normalize_row Sample.float_str Sample.seventeen_point_zero) = "17" /\
  get Phase5 (normalize_row Sample.float_str Sample.seventeen_point_zero)
    = str_penalized_points_per_phase Phase5.
Proof. repeat split. Qed.

(** C2, amended.  In every row and for every phase, a cell that equals the
    penalized score configured for that phase - a number equal to it, or
    the very text of it - is ["Penalized"] after normalisation, and not the
    raw penalized text.  A text cell gives the raw penalized text exactly
    when it is not that text itself but becomes it once line 75 has taken
    every [".0"] out of it; a text cell without [".0"] never does. *)
Theorem C2_penalized_cell_becomes_Penalized
  {S} (fs : Q -> string) (p : phase) (r : row cell S) :
  (equals_penalized p (get p r) = true ->
   get p (normalize_row fs r) = "Penalized" /\
   get p (normalize_row fs r) <> str_penalized_points_per_phase p) /\
  (forall s, get p r = CStr s ->
     (get p (normalize_row fs r) = str_penalized_points_per_phase p <->
      s <> str_penalized_points_per_phase p /\
      strip_point_zero s = str_penalized_points_per_phase p)) /\
  (forall s, get p r = CStr s -> Text.contains ".0" s = false ->
     get p (normalize_row fs r) <> str_penalized_points_per_phase p).
Proof.
  assert (Htext : forall s, get p r = CStr s ->
     (get p (normalize_row fs r) = str_penalized_points_per_phase p <->
      s <> str_penalized_points_per_phase p /\
      strip_point_zero s = str_penalized_points_per_phase p)).
  { intros s Hs. rewrite get_normalize_row, Hs.
    destruct (String.eqb_spec s (str_penalized_points_per_phase p)) as [E|E].
    - assert (Hpen : equals_penalized p (CStr s) = true)
        by (unfold equals_penalized; rewrite E; apply String.eqb_refl).
      rewrite (normalize_cell_penalized fs p _ Hpen).
      split; [destruct p; discriminate|intros [Hne _]; contradiction].
    - rewrite (normalize_cell_other_text fs p s E). tauto. }
  split; [|split].
  - intros H. rewrite (penalized_cell_of_a_row fs p r H).
    split; [reflexivity|]. destruct p; discriminate.
  - exact Htext.
  - intros s Hs Habsent Hraw. apply (Htext s Hs) in Hraw as [Hne Hstrip].
    unfold strip_point_zero in Hstrip. rewrite (replace_absent _ _ s Habsent) in Hstrip.
    contradiction.
Qed.

Lemma C2_witness_text_and_number :
  get Phase1 (normalize_row Sample.float_str Sample.mixed) = "Penalized" /\
  get Phase1 (normalize_row Sample.float_str Sample.penalized_once) = "Penalized" /\
  get Phase2 (normalize_row Sample.float_str Sample.mixed)
    <> str_penalized_points_per_phase Phase2.
Proof.
  split; [|split].
  - apply (C2_penalized_cell_becomes_Penalized Sample.float_str Phase1 Sample.mixed).
    reflexivity.
  - apply (C2_penalized_cell_becomes_Penalized Sample.float_str Phase1 Sample.penalized_once).
    reflexivity.
  - apply (C2_penalized_cell_becomes_Penalized Sample.float_str Phase2 Sample.mixed)
      with (s := "Too Late"); reflexivity.
Defined.

(** C4, as the spec has it, fails: the text ["1.05"] of a phase-1 cell is
    not the penalized score and does not end in [".0"], yet line 75 changes
    it. *)
Lemma C4_inner_point_zero_is_removed :
  "1.05" <> str_penalized_points_per_phase Phase1 /\
  Text.ends_with ".0" "1.05" = false /\
  normalize_cell Sample.float_str Phase1 (CStr "1.05") = "15" /\
  normalize_cell Sample.float_str Phase1 (CStr "1.05") <> "1.05".
Proof. repeat split; (discriminate || reflexivity). Qed.

Lemma normalize_cell_text fs (p : phase) (s : string) :
  s <> str_penalized_points_per_phase p ->
  normalize_cell fs p (CStr s) = strip_point_zero s.
Proof.
  intros H. unfold normalize_cell, replace_float, replace_str.
  destruct (String.eqb_spec s (str_penalized_points_per_phase p)); [contradiction|reflexivity].
Qed.

(** C4, amended.  Line 75 removes every occurrence of [".0"], wherever it
    stands: a text cell that is not the penalized score goes through
    [strip_point_zero]; whole-number text [d.0] (no point in [d]) becomes
    [d]; a text without [".0"] - the markers among them - stays as it is;
    and behind the first [".0"] the removal goes on. *)
Theorem C4_every_point_zero_is_removed :
  (forall fs p s, s <> str_penalized_points_per_phase p ->
     normalize_cell fs p (CStr s) = strip_point_zero s) /\
  (forall d, Text.contains "." d = false -> strip_point_zero (d +:+ ".0") = d) /\
  (forall s, Text.contains ".0" s = false -> strip_point_zero s = s) /\
  (forall a b, Text.contains ".0" a = false ->
     strip_point_zero (a +:+ ".0" +:+ b) = a +:+ strip_point_zero b) /\
  strip_point_zero "Penalized" = "Penalized" /\
  strip_point_zero "Too Late" = "Too Late" /\
  strip_point_zero "Invalid" = "Invalid".
Proof.
  split; [exact normalize_cell_text|].
  split.
  { intros d Hd.
    pose proof (strip_first_occurrence d "" (no_point_no_point_zero d Hd)) as H.
    transitivity (d +:+ strip_point_zero ""); [exact H|apply append_empty_r]. }
  split; [intros s Hs; apply replace_absent; exact Hs|].
  split; [exact strip_first_occurrence|].
  repeat split.
Qed.

Lemma C4_witness_whole_number_and_marker :
  strip_point_zero ("15" +:+ ".0") = "15" /\
  strip_point_zero "Too Late" = "Too Late" /\
  strip_point_zero ("1" +:+ ".0" +:+ "5.0") = "1" +:+ strip_point_zero "5.0" /\
  normalize_cell Sample.float_str Phase1 (CStr "15.0") = strip_point_zero "15.0".
Proof.
  destruct C4_every_point_zero_is_removed as (Hcell & Hwhole & Hsame & Hfirst & _).
  split; [|split; [|split]].
  - apply Hwhole. reflexivity.
  - apply Hsame. reflexivity.
  - apply Hfirst. reflexivity.
  - apply Hcell. discriminate.
Defined.

(** ** The run up to the first written file *)

Lemma placeholder_test (u : string) :
  u <> "INSERT URL HERE" -> String.eqb u "INSERT URL HERE" = false.
Proof. intros H. destruct (String.eqb_spec u "INSERT URL HERE"); [contradiction|reflexivity]. Qed.

Lemma main_fetched (w : world) (u html : string) :
  u <> "INSERT URL HERE" -> urlopen w u = Returns html ->
  main w u = after_fetch w html initial.
Proof.
  intros Hu Hopen. unfold main, script, bind at 1.
  rewrite (placeholder_test u Hu). unfold ret at 1.
  unfold bind at 1, fetch, call at 1. rewrite Hopen. reflexivity.
Qed.

Lemma main_fetch_raises (w : world) (u : string) (e : abort) :
  u <> "INSERT URL HERE" -> urlopen w u = Raises e ->
  main w u = (Raises e, initial).
Proof.
  intros Hu Hopen. unfold main, script, bind at 1.
  rewrite (placeholder_test u Hu). unfold ret at 1.
  unfold bind at 1, fetch, call at 1. rewrite Hopen. reflexivity.
Qed.

Lemma after_fetch_wrong_page (w : world) (html : string) (st : state) :
  Text.contains title_marker html = false ->
  after_fetch w html st = (Raises (SystemExit wrong_page_message), st).
Proof.
  intros H. unfold after_fetch, bind at 1, validate. rewrite H. reflexivity.
Qed.

Lemma after_fetch_loaded (w : world) (html : string) rows df (st : state) :
  Text.contains title_marker html = true ->
  read_html w html = Returns rows ->
  load (float_str w) rows = Returns df ->
  after_fetch w html st = after_load w html (State df (files st)).
Proof.
  intros Ht Hr Hl. unfold after_fetch, bind at 1, validate.
  rewrite Ht. unfold ret at 1, bind at 1, call at 1. rewrite Hr.
  unfold bind at 1, call at 1. rewrite Hl.
  unfold bind at 1, assign_df. reflexivity.
Qed.

(** C5.  When the fetched page does not contain the exact title marker, the
    run ends with the exit of line 45 (the spec's ValidationError: wrong
    page or page unavailable), and at that point no file has been written:
    the state of the aborted run is the initial one. *)
Theorem C5_missing_title_aborts_before_any_file (w : world) (u html : string) :
  u <> "INSERT URL HERE" ->
  urlopen w u = Returns html ->
  Text.contains title_marker html = false ->
  main w u = (Raises (SystemExit wrong_page_message), initial) /\
  files (snd (main w u)) = [].
Proof.
  intros Hu Hopen Htitle.
  rewrite (main_fetched w u html Hu Hopen), (after_fetch_wrong_page w html initial Htitle).
  split; reflexivity.
Qed.

Lemma C5_witness_other_page :
  main (Sample.world_of (Returns Sample.some_other_page) Sample.thirds) url
    = (Raises (SystemExit wrong_page_message), initial) /\
  files (snd (main (Sample.world_of (Returns Sample.some_other_page) Sample.thirds) url)) = [].
Proof.
  apply (C5_missing_title_aborts_before_any_file _ url Sample.some_other_page).
  - discriminate.
  - reflexivity.
  - reflexivity.
Defined.

(** C6, as the spec has it, fails: on a page with the title and a table but
    without the line of the last update the run raises at line 87 and
    writes nothing. *)
Lemma C6_missing_stamp_aborts_the_run :
  Text.contains title_marker Sample.page_without_stamp = true /\
  Text.search_group "updated: " " (updated" Sample.page_without_stamp = None /\
  fst (main (Sample.world_of (Returns Sample.page_without_stamp) Sample.thirds) url)
    = Raises (Uncaught "AttributeError") /\
  files (snd (main (Sample.world_of (Returns Sample.page_without_stamp) Sample.thirds) url)) = [].
Proof. vm_compute. repeat split. Qed.

(** C6, amended.  When the pattern of the last update is absent from a page
    that was fetched, has the title and gave its table, the run aborts at
    line 87 with an AttributeError; the frame has been built and no file
    has been written. *)
Theorem C6_missing_stamp_raises_AttributeError
  (w : world) (u html : string) (rows : list raw_row) (df : frame string float) :
  u <> "INSERT URL HERE" ->
  urlopen w u = Returns html ->
  Text.contains title_marker html = true ->
  read_html w html = Returns rows ->
  load (float_str w) rows = Returns df ->
  Text.search_group "updated: " " (updated" html = None ->
  main w u = (Raises (Uncaught "AttributeError"), State df []).
Proof.
  intros Hu Hopen Htitle Hread Hload Hstamp.
  rewrite (main_fetched w u html Hu Hopen).
  rewrite (after_fetch_loaded w html rows df initial Htitle Hread Hload).
  unfold after_load, bind at 1, updated_stamp. rewrite Hstamp. reflexivity.
Qed.

Lemma C6_witness_page_without_stamp :
  exists df,
    load Sample.float_str Sample.thirds = Returns df /\
    main (Sample.world_of (Returns Sample.page_without_stamp) Sample.thirds) url
      = (Raises (Uncaught "AttributeError"), State df []).
Proof.
  eexists. split; [vm_compute; reflexivity|].
  apply (C6_missing_stamp_raises_AttributeError _ url Sample.page_without_stamp Sample.thirds).
  - discriminate.
  - reflexivity.
  - reflexivity.
  - reflexivity.
  - vm_compute. reflexivity.
  - reflexivity.
Defined.

(** C8, as the spec has it, fails: an empty response body is no error of
    the fetch step; the run goes on and ends at the check of the title,
    with the very exit a wrong page gets. *)
Lemma C8_empty_body_is_not_a_fetch_error :
  fetch (Sample.world_of (Returns "") Sample.thirds) url initial = (Returns "", initial) /\
  main (Sample.world_of (Returns "") Sample.thirds) url
    = (Raises (SystemExit wrong_page_message), initial).
Proof. split; reflexivity. Qed.

(** C8, amended.  When the read raises, the fetch step raises that same
    exception, the run ends with it before anything else happens, and it
    is not the exit of the title check.  An empty body does not fail the
    fetch step: it fails the title check. *)
Theorem C8_read_error_aborts_empty_body_passes (w : world) (u : string) :
  u <> "INSERT URL HERE" ->
  (forall exc st, urlopen w u = Raises (Uncaught exc) ->
     fetch w u st = (Raises (Uncaught exc), st) /\
     main w u = (Raises (Uncaught exc), initial) /\
     Uncaught exc <> SystemExit wrong_page_message) /\
  (forall st, urlopen w u = Returns "" ->
     fetch w u st = (Returns "", st) /\
     main w u = (Raises (SystemExit wrong_page_message), initial)).
Proof.
  intros Hu. split.
  - intros exc st Hopen. split; [|split].
    + unfold fetch, call. rewrite Hopen. reflexivity.
    + apply main_fetch_raises; assumption.
    + discriminate.
  - intros st Hopen. split.
    + unfold fetch, call. rewrite Hopen. reflexivity.
    + rewrite (main_fetched w u "" Hu Hopen). apply after_fetch_wrong_page. reflexivity.
Qed.

Lemma C8_witness_unreachable_host :
  main (Sample.world_of (Raises (Uncaught "URLError")) Sample.thirds) url
    = (Raises (Uncaught "URLError"), initial) /\
  main (Sample.world_of (Returns "") Sample.thirds) url
    = (Raises (SystemExit wrong_page_message), initial).
Proof.
  split.
  - destruct (C8_read_error_aborts_empty_body_passes
                (Sample.world_of (Raises (Uncaught "URLError")) Sample.thirds) url)
      as [Hraise _]; [discriminate|].
    apply (Hraise "URLError" initial). reflexivity.
  - destruct (C8_read_error_aborts_empty_body_passes
                (Sample.world_of (Returns "") Sample.thirds) url)
      as [_ Hempty]; [discriminate|].
    apply (Hempty initial). reflexivity.
Defined.

(** ** Counting *)

Lemma occurrences_cons (v a : string) (col : list string) :
  occurrences v (a :: col) = (if decide (a = v) then S (occurrences v col) else occurrences v col).
Proof.
  unfold occurrences. rewrite filter_cons. destruct (decide (a = v)); reflexivity.
Qed.

(** [value_counts] has an entry exactly for the values that occur. *)
Lemma value_counts_lookup (col : list string) (v : string) :
  value_counts col !! v =
  match occurrences v col with
  | O => None
  | S n => Some (S n)
  end.
Proof.
  induction col as [|a col IH]; [reflexivity|].
  cbn [value_counts foldr]. fold (value_counts col).
  rewrite occurrences_cons. destruct (decide (a = v)) as [->|Hne].
  - rewrite lookup_insert_eq, IH. destruct (occurrences v col); reflexivity.
  - rewrite lookup_insert_ne by exact Hne. exact IH.
Qed.

Lemma is_Some_test {A} (o : option A) :
  bool_decide (is_Some o) = match o with Some _ => true | None => false end.
Proof.
  destruct o; [apply bool_decide_eq_true; eauto|apply bool_decide_eq_false].
  intros [x Hx]. discriminate.
Qed.

(** Lines 119-121 give the number of cells with the label when there is
    one, and raise when there is none. *)
Lemma total_of_cells (label : string) (df : frame string float) :
  total_of label df =
  match cells_with label df with
  | O => Raises (Uncaught "KeyError")
  | S n => Returns (S n)
  end.
Proof.
  unfold total_of, loc, cells_with, count_df, phases.
  cbn [map existsb nansum foldr sum_list sum_list_with].
  rewrite !is_Some_test, !value_counts_lookup.
  destruct (occurrences label (column Phase1 df));
    destruct (occurrences label (column Phase2 df));
    destruct (occurrences label (column Phase3 df));
    destruct (occurrences label (column Phase4 df));
    destruct (occurrences label (column Phase5 df));
    cbn [orb default]; try reflexivity; f_equal; lia.
Qed.

(** The per-phase series of line 103 has 0 for a label that does not occur. *)
Lemma phase_count_ser_penalized (p : phase) (df : frame string float) :
  penalized (phase_stats p df) = occurrences "Penalized" (column p df).
Proof.
  unfold phase_stats, phase_count_ser, reindex. cbn [penalized map list_to_map foldr].
  unfold lookup_total, map_lookup_total.
  assert (Hne : points_per_phase p <> "Penalized") by (destruct p; discriminate).
  cbn [fst snd]. rewrite lookup_insert_ne by exact Hne.
  rewrite lookup_insert_ne by discriminate.
  rewrite lookup_insert_eq. cbn [default].
  rewrite value_counts_lookup. destruct (occurrences _ _); reflexivity.
Qed.

(** C7: the code at a table without any penalized cell.  The per-phase
    lines of the report count 0 penalized cells for every phase, but the
    total of line 119 is not 0: reading the label from [count_df] raises a
    KeyError, and the run ends there without a file. *)
Theorem C7_absent_category_raises_KeyError :
  cells_with "Penalized" (Sample.frame_of [Sample.full_marks]) = 0 /\
  (forall p, penalized (phase_stats p (Sample.frame_of [Sample.full_marks])) = 0) /\
  total_of "Penalized" (Sample.frame_of [Sample.full_marks]) = Raises (Uncaught "KeyError") /\
  main (Sample.world_of (Returns Sample.page) [Sample.full_marks]) url
    = (Raises (Uncaught "KeyError"), State (Sample.frame_of [Sample.full_marks]) []).
Proof.
  split; [reflexivity|]. split; [intros p; destruct p; vm_compute; reflexivity|].
  split; vm_compute; reflexivity.
Qed.

(** ** The three sections that write a file *)

Lemma phases_count_loop_furthest (ps : list phase) (st : state) :
  for_collect ps furthest_step st =
  (Returns (fst (furthest ps (scoreboard_df st))),
   State (snd (furthest ps (scoreboard_df st))) (files st)).
Proof.
  revert st. induction ps as [|p ps IH]; intros st.
  - destruct st. reflexivity.
  - cbn [for_collect furthest]. unfold bind at 1.
    unfold furthest_step at 1, bind, read_df, assign_df, ret.
    rewrite IH. reflexivity.
Qed.

(** The report and the histogram leave [scoreboard_df] as it is and read
    it as it is. *)
Lemma write_stats_run (dt : datetime) (st : state) :
  write_stats dt st =
  match stats dt (scoreboard_df st) with
  | Returns r =>
      (Returns tt,
       State (scoreboard_df st) (files st ++ [("project_stats.txt", StatsText r)]))
  | Raises e => (Raises e, st)
  end.
Proof.
  unfold write_stats, bind, read_df, call, write_file.
  destruct (stats dt (scoreboard_df st)); reflexivity.
Qed.

Lemma scores_histogram_run (st : state) :
  scores_histogram st =
  (Returns tt,
   State (scoreboard_df st)
         (files st ++ [("scores_histogram.png",
                        HistogramImage (scores (scoreboard_df st)) histogram_bins)])).
Proof. reflexivity. Qed.

Lemma phases_barplot_run (st : state) :
  phases_barplot st =
  (Returns tt,
   State (snd (furthest (rev phases) (scoreboard_df st)))
         (files st ++ [("phases_barplot.png",
                        BarplotImage (bars_labels (rev (fst (furthest (rev phases)
                                                                (scoreboard_df st))))))])).
Proof.
  unfold phases_barplot, phases_count_loop, bind.
  rewrite phases_count_loop_furthest. reflexivity.
Qed.

Lemma outputs_run (dt : datetime) (df : frame string float) :
  outputs dt (State df []) =
  match stats dt df with
  | Returns r =>
      (Returns tt,
       State (snd (furthest (rev phases) df))
             [("project_stats.txt", StatsText r);
              ("scores_histogram.png", HistogramImage (scores df) histogram_bins);
              ("phases_barplot.png",
               BarplotImage (bars_labels (rev (fst (furthest (rev phases) df)))))])
  | Raises e => (Raises e, State df [])
  end.
Proof.
  unfold outputs, bind at 1. rewrite write_stats_run. cbn [scoreboard_df files].
  destruct (stats dt df) as [r|e]; [|reflexivity].
  unfold bind. rewrite scores_histogram_run, phases_barplot_run. reflexivity.
Qed.

(** A run that ends well went through every step. *)
Lemma main_returns_inv (w : world) (u : string) (final : state) :
  main w u = (Returns tt, final) ->
  exists html rows df stamp dt,
    urlopen w u = Returns html /\
    read_html w html = Returns rows /\
    load (float_str w) rows = Returns df /\
    Text.search_group "updated: " " (updated" html = Some stamp /\
    strptime w stamp = Returns dt /\
    outputs dt (State df []) = (Returns tt, final).
Proof.
  unfold main, script, bind at 1.
  destruct (String.eqb u "INSERT URL HERE"); [discriminate|].
  unfold ret at 1, bind at 1, fetch, call at 1.
  destruct (urlopen w u) as [html|e] eqn:Hopen; [|discriminate].
  unfold after_fetch, bind at 1, validate.
  destruct (Text.contains title_marker html); [|discriminate].
  unfold ret at 1, bind at 1, call at 1.
  destruct (read_html w html) as [rows|e] eqn:Hread; [|discriminate].
  unfold bind at 1, call at 1.
  destruct (load (float_str w) rows) as [df|e] eqn:Hload; [|discriminate].
  unfold bind at 1, assign_df, initial. cbn [files].
  unfold after_load, bind at 1, updated_stamp.
  destruct (Text.search_group "updated: " " (updated" html) as [stamp|] eqn:Hstamp;
    [|discriminate].
  unfold ret at 1, bind at 1, call at 1.
  destruct (strptime w stamp) as [dt|e] eqn:Hdt; [|discriminate].
  intros Hout. exists html, rows, df, stamp, dt. repeat split; assumption.
Qed.

(** C9.  In every run that ends well, the report holds the statistics of
    the full normalised frame and the histogram is drawn from the scores of
    the full normalised frame; after both are written the frame is still
    that one, and only then the loop of the bar chart removes rows, so that
    what is left at the end is what the loop left. *)
Theorem C9_report_and_histogram_read_the_full_frame
  (w : world) (u : string) (final : state) :
  main w u = (Returns tt, final) ->
  exists html rows df dt r,
    urlopen w u = Returns html /\
    read_html w html = Returns rows /\
    load (float_str w) rows = Returns df /\
    stats dt df = Returns r /\
    (step write_stats dt; scores_histogram) (State df []) =
      (Returns tt,
       State df [("project_stats.txt", StatsText r);
                 ("scores_histogram.png", HistogramImage (scores df) histogram_bins)]) /\
    files final =
      [("project_stats.txt", StatsText r);
       ("scores_histogram.png", HistogramImage (scores df) histogram_bins);
       ("phases_barplot.png",
        BarplotImage (bars_labels (rev (fst (furthest (rev phases) df)))))] /\
    scoreboard_df final = snd (furthest (rev phases) df).
Proof.
  intros Hmain.
  destruct (main_returns_inv w u final Hmain)
    as (html & rows & df & stamp & dt & Hopen & Hread & Hload & _ & _ & Hout).
  rewrite outputs_run in Hout.
  destruct (stats dt df) as [r|e] eqn:Hstats; [|discriminate].
  injection Hout as <-.
  exists html, rows, df, dt, r.
  repeat split; try assumption.
  unfold bind. rewrite write_stats_run. cbn [scoreboard_df files]. rewrite Hstats.
  reflexivity.
Qed.

Lemma C9_witness_three_targets :
  exists html rows df dt r,
    urlopen (Sample.world_of (Returns Sample.page) Sample.thirds) url = Returns html /\
    read_html (Sample.world_of (Returns Sample.page) Sample.thirds) html = Returns rows /\
    load Sample.float_str rows = Returns df /\
    stats dt df = Returns r /\
    (step write_stats dt; scores_histogram) (State df []) =
      (Returns tt,
       State df [("project_stats.txt", StatsText r);
                 ("scores_histogram.png", HistogramImage (scores df) histogram_bins)]) /\
    files (snd (main (Sample.world_of (Returns Sample.page) Sample.thirds) url)) =
      [("project_stats.txt", StatsText r);
       ("scores_histogram.png", HistogramImage (scores df) histogram_bins);
       ("phases_barplot.png",
        BarplotImage (bars_labels (rev (fst (furthest (rev phases) df)))))] /\
    scoreboard_df (snd (main (Sample.world_of (Returns Sample.page) Sample.thirds) url))
      = snd (furthest (rev phases) df).
Proof.
  apply (C9_report_and_histogram_read_the_full_frame
           (Sample.world_of (Returns Sample.page) Sample.thirds) url).
  vm_compute. reflexivity.
Defined.

(** The order matters: were the bar chart drawn first, the histogram of
    the same three targets would be drawn from no score at all. *)
Example barplot_first_would_empty_the_histogram :
  scores (Sample.frame_of Sample.thirds) = [15%float; 37.75%float; 65%float] /\
  snd (furthest (rev phases) (Sample.frame_of Sample.thirds)) = [] /\
  exists bars,
    files (snd ((step phases_barplot; scores_histogram)
                  (State (Sample.frame_of Sample.thirds) []))) =
    [("phases_barplot.png", BarplotImage bars);
     ("scores_histogram.png", HistogramImage [] histogram_bins)].
Proof. split; [reflexivity|]. split; [reflexivity|]. eexists. vm_compute. reflexivity. Qed.

(** ** Descriptive statistics *)


Lemma stats_cases (dt : datetime) (df : frame string float) :
  stats dt df =
  match cells_with "Penalized" df, cells_with "Too Late" df, cells_with "Invalid" df with
  | S a, S b, S c =>
      Returns (Report dt (length (index df)) (map (fun p => (p, phase_stats p df)) (rev phases))
                      (no_phases_count df) (S a) (S b) (S c) (standard df))
  | _, _, _ => Raises (Uncaught "KeyError")
  end.
Proof.
  unfold stats. rewrite !total_of_cells.
  destruct (cells_with "Penalized" df); [reflexivity|].
  destruct (cells_with "Too Late" df); [reflexivity|].
  destruct (cells_with "Invalid" df); reflexivity.
Qed.




(** ** The furthest-phase loop *)

Lemma filter_agree {A} (P Q : A -> Prop)
  `{!forall x, Decision (P x)} `{!forall x, Decision (Q x)} (l : list A) :
  (forall x, x ∈ l -> (P x <-> Q x)) -> filter P l = filter Q l.
Proof.
  induction l as [|a l IH]; intros Hag; [reflexivity|].
  rewrite !filter_cons.
  assert (Ha : P a <-> Q a) by (apply Hag; left).
  rewrite IH by (intros x Hx; apply Hag; right; exact Hx).
  destruct (decide (P a)), (decide (Q a)); tauto.
Qed.

(** Under an index without repetition a row is known by its label. *)
Lemma label_determines_row {C S} (df : frame C S) (x y : nat * row C S) :
  NoDup (index df) -> x ∈ df -> y ∈ df -> fst x = fst y -> x = y.
Proof.
  unfold index. induction df as [|a df IH]; intros Hnd Hx Hy Hxy.
  - inversion Hx.
  - rewrite fmap_cons in Hnd. apply NoDup_cons in Hnd as [Hnotin Hnd].
    apply elem_of_cons in Hx as [->|Hx]; apply elem_of_cons in Hy as [->|Hy].
    + reflexivity.
    + exfalso. apply Hnotin. rewrite Hxy. apply list_elem_of_fmap. eauto.
    + exfalso. apply Hnotin. rewrite <- Hxy. apply list_elem_of_fmap. eauto.
    + apply IH; assumption.
Qed.

Lemma index_filter_NoDup {C S} (P : nat * row C S -> Prop)
  `{!forall x, Decision (P x)} (df : frame C S) :
  NoDup (index df) -> NoDup (index (filter P df)).
Proof.
  unfold index. intros Hnd. eapply sublist_NoDup; [exact Hnd|].
  apply fmap_sublist, sublist_filter.
Qed.

(** Dropping the labels of the rows that pass leaves the rows that do not. *)
Lemma drop_passed (p : phase) (df : frame string float) :
  NoDup (index df) ->
  drop_index (passed_phase_index p df) df
  = filter (fun ir => ~ passed_test p (get p (snd ir)) = true) df.
Proof.
  intros Hnd. unfold drop_index, passed_phase_index. apply filter_agree.
  intros x Hx. split.
  - intros Hnot Hpass. apply Hnot. unfold index. apply list_elem_of_fmap.
    exists x. split; [reflexivity|]. apply list_elem_of_filter. split; assumption.
  - intros Hfail Hin. unfold index in Hin. apply list_elem_of_fmap in Hin as (y & Hxy & Hy).
    apply list_elem_of_filter in Hy as [Hpass Hy].
    assert (x = y) by (eapply label_determines_row; eassumption).
    subst y. contradiction.
Qed.

Lemma length_index {C S} (df : frame C S) : length (index df) = length df.
Proof. unfold index. apply length_fmap. Qed.

Lemma length_filter_complement {A} (P : A -> Prop) `{!forall x, Decision (P x)} (l : list A) :
  length (filter P l) + length (filter (fun x => ~ P x) l) = length l.
Proof.
  rewrite <- length_app. apply Permutation_length, filter_app_complement.
Qed.

(** What the loop counts and what it leaves make up the frame: no row is
    counted twice. *)
Lemma furthest_counts_and_rest (ps : list phase) (df : frame string float) :
  NoDup (index df) ->
  sum_list (fst (furthest ps df)) + length (snd (furthest ps df)) = length df.
Proof.
  revert df. induction ps as [|p ps IH]; intros df Hnd; [reflexivity|].
  cbn [furthest fst snd sum_list sum_list_with].
  rewrite drop_passed by exact Hnd.
  rewrite <- Nat.add_assoc, IH by (apply index_filter_NoDup; exact Hnd).
  unfold passed_phase_index. rewrite length_index.
  apply length_filter_complement.
Qed.

(** The rows the loop leaves are those that pass the test of line 176 in
    none of the phases. *)
Lemma furthest_rest (ps : list phase) (df : frame string float) :
  NoDup (index df) ->
  snd (furthest ps df)
  = filter (fun ir => Forall (fun p => ~ passed_test p (get p (snd ir)) = true) ps) df.
Proof.
  revert df. induction ps as [|p ps IH]; intros df Hnd.
  - cbn [furthest snd]. induction df as [|a df IHdf]; [reflexivity|].
    rewrite filter_cons_True by constructor. f_equal. apply IHdf.
    unfold index in *. rewrite fmap_cons in Hnd. apply NoDup_cons in Hnd. tauto.
  - cbn [furthest snd]. rewrite drop_passed by exact Hnd.
    rewrite IH by (apply index_filter_NoDup; exact Hnd).
    rewrite list_filter_filter. apply filter_agree. intros x _.
    rewrite Forall_cons. tauto.
Qed.

Lemma score_astype_float_index {C} (df : frame C (option float)) (df' : frame C float) :
  score_astype_float df = Returns df' -> index df' = index df.
Proof.
  revert df'. induction df as [|[i r] df IH]; intros df' H; cbn [score_astype_float] in H.
  - injection H as <-. reflexivity.
  - destruct (Score r); [|discriminate].
    destruct (score_astype_float df) as [t|e]; [|discriminate].
    injection H as <-. unfold index in *. rewrite !fmap_cons. cbn [fst].
    f_equal. apply IH. reflexivity.
Qed.

(** The frame the script builds has the labels 0, 1, 2, ... *)
Lemma load_index (fs : Q -> string) (rows : list raw_row) (df : frame string float) :
  load fs rows = Returns df -> index df = seq 0 (length rows).
Proof.
  unfold load. intros H. rewrite (score_astype_float_index _ _ H).
  unfold index, normalize, with_range_index.
  change (map (fun ir => (fst ir, normalize_row fs (snd ir))))
    with (fmap (M:=list) (fun ir : nat * raw_row => (fst ir, normalize_row fs (snd ir)))).
  rewrite <- list_fmap_compose.
  change (fst ∘ _) with (@fst nat raw_row).
  apply fst_zip. rewrite length_seq. reflexivity.
Qed.

Lemma load_length (fs : Q -> string) (rows : list raw_row) (df : frame string float) :
  load fs rows = Returns df -> length df = length rows.
Proof.
  intros H. rewrite <- length_index, (load_index fs rows df H). apply length_seq.
Qed.

(** In every run the five counts and the rows left over add up to the
    number of targets. *)
Lemma loaded_counts_and_rest fs rows df :
  load fs rows = Returns df ->
  sum_list (fst (furthest (rev phases) df)) + length (snd (furthest (rev phases) df))
  = length rows.
Proof.
  intros H. rewrite furthest_counts_and_rest.
  - exact (load_length fs rows df H).
  - rewrite (load_index fs rows df H). apply NoDup_seq.
Qed.

(** C1: the code in a whole run on a table with two targets who both
    passed phase 1 and nothing else, the first of them with the penalty.
    Normalisation has turned the cell of the first into ["Penalized"]; the
    report counts two targets for phase 1 and nobody without a phase.  The
    loop of lines 174-180, which compares with the raw text ["12.75"],
    counts one target only: the bar of phase 1 stands for 1 target and
    100 percent, and the penalized target is still in the frame at the
    end, counted under no phase. *)
Theorem C1_penalized_pass_is_not_counted :
  Sample.frame_of Sample.two_in_phase_1
    = [(0, Row "Penalized" "Too Late" "Invalid" "0" "0" 12.75%float);
       (1, Row "15" "0" "0" "0" "0" 15%float)] /\
  fst (main (Sample.world_of (Returns Sample.page) Sample.two_in_phase_1) url) = Returns tt /\
  (exists rep rest,
     files (snd (main (Sample.world_of (Returns Sample.page) Sample.two_in_phase_1) url))
       = ("project_stats.txt", StatsText rep) :: rest /\
     total_targets rep = 2 /\ no_phases rep = 0 /\
     last (per_phase rep) = Some (Phase1, PhaseLines 2 1 0 0)) /\
  last (files (snd (main (Sample.world_of (Returns Sample.page) Sample.two_in_phase_1) url)))
    = Some ("phases_barplot.png",
            BarplotImage [Bar Phase1 100%float 1; Bar Phase2 0%float 0; Bar Phase3 0%float 0;
                          Bar Phase4 0%float 0; Bar Phase5 0%float 0]) /\
  scoreboard_df (snd (main (Sample.world_of (Returns Sample.page) Sample.two_in_phase_1) url))
    = [(0, Row "Penalized" "Too Late" "Invalid" "0" "0" 12.75%float)].
Proof.
  split; [vm_compute; reflexivity|]. split; [vm_compute; reflexivity|]. split.
  - eexists. eexists. split; [vm_compute; reflexivity|]. repeat split.
  - split; vm_compute; reflexivity.
Qed.

(** The same slip moves a target down: penalized in phase 5 after full
    credit in phases 1 to 4, it is put under phase 4. *)
Example penalized_last_phase_counts_as_phase_4 :
  get Phase5 (normalize_row Sample.float_str Sample.penalized_last) = "Penalized" /\
  fst (furthest (rev phases) (Sample.frame_of [Sample.penalized_last])) = [0; 1; 0; 0; 0].
Proof. split; vm_compute; reflexivity. Qed.

(** ** The bar labels *)

Lemma labels_of_percent (h : nat -> float) (ps : list phase) (l : list nat) :
  map (fun x => Bar (fst (fst x)) (round1 (snd (fst x))) (snd x))
      (combine (combine ps (map h l)) l)
  = map (fun pc => Bar (fst pc) (round1 (h (snd pc))) (snd pc)) (combine ps l).
Proof.
  revert l. induction ps as [|p ps IH]; intros [|c l]; try reflexivity.
  cbn [map combine fst snd]. f_equal. apply IH.
Qed.

Lemma bars_labels_formula (counts : list nat) :
  bars_labels counts
  = map (fun pc => Bar (fst pc)
                       (round1 (of_nat (snd pc) / of_nat (sum_list counts) * 100)%float)
                       (snd pc))
        (combine phases counts).
Proof.
  unfold bars_labels, percent, proportion. rewrite List.map_map.
  apply (labels_of_percent (fun c => (of_nat c / of_nat (sum_list counts) * 100)%float)).
Qed.

Lemma sum_list_rev (l : list nat) : sum_list (rev l) = sum_list l.
Proof.
  induction l as [|x l IH]; [reflexivity|].
  cbn [rev]. rewrite sum_list_with_app, IH. cbn. unfold id. lia.
Qed.

(** C10, as written, fails: three targets whose furthest phases are 1, 2
    and 3 all passed a phase, each of their bars is labelled 33.3, and the
    five displayed percentages add up to 99.9, not to 100. *)
Lemma C10_displayed_percentages_add_up_to_99_9 :
  fst (main (Sample.world_of (Returns Sample.page) Sample.thirds) url) = Returns tt /\
  last (files (snd (main (Sample.world_of (Returns Sample.page) Sample.thirds) url)))
    = Some ("phases_barplot.png",
            BarplotImage [Bar Phase1 (333 / 10)%float 1; Bar Phase2 (333 / 10)%float 1;
                          Bar Phase3 (333 / 10)%float 1; Bar Phase4 0%float 0;
                          Bar Phase5 0%float 0]) /\
  PrimFloat.eqb (333 / 10 + 333 / 10 + 333 / 10 + 0 + 0)%float 100%float = false /\
  (333 + 333 + 333 + 0 + 0 <> 1000)%Z.
Proof.
  split; [|split; [|split]];
    [vm_compute; reflexivity|vm_compute; reflexivity|vm_compute; reflexivity|lia].
Qed.

(** C10, amended.  The bar of each phase is labelled with its count and
    with the percentage [count / sum of the five counts * 100], computed on
    floats and rounded to one decimal.  The denominator is the sum of the
    five counts of the loop, not the number of targets: on a frame with
    distinct labels it is the number of targets less the rows the loop has
    left in the frame. *)
Theorem C10_label_is_rounded_share_of_the_counted (st : state) :
  let counts := rev (fst (furthest (rev phases) (scoreboard_df st))) in
  files (snd (phases_barplot st))
    = (files st ++
       [("phases_barplot.png",
         BarplotImage
           (map (fun pc => Bar (fst pc)
                               (round1 (of_nat (snd pc) / of_nat (sum_list counts) * 100)%float)
                               (snd pc))
                (combine phases counts)))])%list /\
  (NoDup (index (scoreboard_df st)) ->
   sum_list counts + length (snd (furthest (rev phases) (scoreboard_df st)))
   = length (scoreboard_df st)).
Proof.
  intros counts. split.
  - rewrite phases_barplot_run. cbn [snd files]. fold counts.
    rewrite bars_labels_formula. reflexivity.
  - intros Hnd. unfold counts. rewrite sum_list_rev.
    exact (furthest_counts_and_rest (rev phases) (scoreboard_df st) Hnd).
Qed.

Lemma C10_witness_two_targets :
  let st := State (Sample.frame_of Sample.two_in_phase_1) [] in
  let counts := rev (fst (furthest (rev phases) (scoreboard_df st))) in
  length (scoreboard_df st) = 2 /\
  sum_list counts = 1 /\
  sum_list counts + length (snd (furthest (rev phases) (scoreboard_df st)))
  = length (scoreboard_df st).
Proof.
  intros st counts. split; [reflexivity|]. split; [reflexivity|].
  apply (C10_label_is_rounded_share_of_the_counted st).
  rewrite (load_index Sample.float_str Sample.two_in_phase_1 (scoreboard_df st) eq_refl).
  apply NoDup_seq.
Defined.

(** The labels follow the floats of the code, not the exact quotient: 23 of
    80 is 28.75 exactly, and 28.749999999999996 and so 28.7 on floats. *)
Example label_of_23_in_80 :
  bar_percent <$> bars_labels [23; 57; 0; 0; 0]
  = [(287 / 10)%float; (712 / 10)%float; 0%float; 0%float; 0%float].
Proof. vm_compute. reflexivity. Qed.

(** ** Worked values *)

Example replace_is_general : Text.replace "ab" "X" "aabab.ab" = "aXX.X".
Proof. reflexivity. Qed.

Example whole_number_float_cell :
  normalize_cell Sample.float_str Phase1 (CFloat (15 # 1)) = "15".
Proof. reflexivity. Qed.

Example integer_cell_of_phase_5 :
  normalize_cell Sample.float_str Phase5 (CInt 17) = "Penalized".
Proof. reflexivity. Qed.

(** Line 75 can also make the raw penalized text out of a cell that was
    something else. *)
Example other_text_can_become_penalized_text :
  normalize_cell Sample.float_str Phase5 (CStr "1.07") = str_penalized_points_per_phase Phase5.
Proof. reflexivity. Qed.

Example greedy_group_takes_the_last_marker :
  Text.search_group "updated: " " (updated"
    "Last updated: Mon Jan 1 (x) (updated every 20 secs)" = Some "Mon Jan 1 (x)".
Proof. reflexivity. Qed.

(** * Further properties of the script *)

(** ** The per-phase lines and the totals (lines 101-121) *)

Lemma full_credit_is_no_marker (p : phase) :
  points_per_phase p <> "0" /\ points_per_phase p <> "Penalized" /\
  points_per_phase p <> "Too Late" /\ points_per_phase p <> "Invalid".
Proof. destruct p; repeat split; discriminate. Qed.

Lemma value_counts_default (col : list string) (v : string) :
  default 0 (value_counts col !! v) = occurrences v col.
Proof. rewrite value_counts_lookup. destruct (occurrences v col); reflexivity. Qed.

(** Each entry of the series of line 103 is the number of cells of the
    column with that label. *)
Lemma phase_count_ser_lookup (p : phase) (df : frame string float) (l : string) :
  l ∈ labels_of p ->
  phase_count_ser p df !!! l = occurrences l (column p df).
Proof.
  destruct (full_credit_is_no_marker p) as (H0 & Hp & Hl & Hi).
  unfold phase_count_ser, reindex, labels_of.
  cbn [map list_to_map foldr fst snd]. unfold lookup_total, map_lookup_total.
  rewrite !value_counts_default.
  intros Hin. repeat (apply elem_of_cons in Hin as [->|Hin]).
  - rewrite lookup_insert_eq. reflexivity.
  - rewrite lookup_insert_ne by exact H0. rewrite lookup_insert_eq. reflexivity.
  - rewrite lookup_insert_ne by exact Hp. rewrite lookup_insert_ne by discriminate.
    rewrite lookup_insert_eq. reflexivity.
  - rewrite lookup_insert_ne by exact Hl. do 2 (rewrite lookup_insert_ne by discriminate).
    rewrite lookup_insert_eq. reflexivity.
  - rewrite lookup_insert_ne by exact Hi. do 3 (rewrite lookup_insert_ne by discriminate).
    rewrite lookup_insert_eq. reflexivity.
  - inversion Hin.
Qed.

Lemma phase_stats_occurrences (p : phase) (df : frame string float) :
  phase_stats p df =
  PhaseLines (occurrences (points_per_phase p) (column p df)
              + occurrences "Penalized" (column p df))
             (occurrences "Penalized" (column p df))
             (occurrences "Too Late" (column p df))
             (occurrences "Invalid" (column p df)).
Proof.
  unfold phase_stats.
  rewrite !phase_count_ser_lookup by (unfold labels_of; set_solver).
  reflexivity.
Qed.

Lemma occurrences_length (v : string) (col : list string) : occurrences v col <= length col.
Proof. unfold occurrences. apply length_filter. Qed.

Lemma two_values_occurrences (a b : string) (col : list string) :
  a <> b -> occurrences a col + occurrences b col <= length col.
Proof.
  intros Hab. induction col as [|x col IH]; [reflexivity|].
  rewrite !occurrences_cons. cbn [length].
  destruct (decide (x = a)), (decide (x = b)); subst; try contradiction; lia.
Qed.

Lemma length_column {C S} (p : phase) (df : frame C S) : length (column p df) = length df.
Proof. unfold column. apply length_map. Qed.

(** X1.  For every phase and every frame, the four numbers the report
    prints for the phase are numbers of cells of that column: the cells
    with the full-credit text plus the cells ["Penalized"], then the cells
    ["Penalized"], ["Too Late"] and ["Invalid"]; and the number of targets
    that passed the phase never exceeds the number of targets. *)
Theorem X1_phase_lines_count_cells (p : phase) (df : frame string float) :
  targets (phase_stats p df)
    = occurrences (points_per_phase p) (column p df) + occurrences "Penalized" (column p df) /\
  penalized (phase_stats p df) = occurrences "Penalized" (column p df) /\
  too_late (phase_stats p df) = occurrences "Too Late" (column p df) /\
  invalid (phase_stats p df) = occurrences "Invalid" (column p df) /\
  targets (phase_stats p df) <= length (index df).
Proof.
  rewrite phase_stats_occurrences. cbn [targets penalized too_late invalid].
  repeat split. rewrite length_index, <- (length_column p df).
  apply two_values_occurrences. apply (full_credit_is_no_marker p).
Qed.

Lemma labelled_cells_make_up_column (p : phase) (col : list string) :
  Forall (fun v => v ∈ labels_of p) col ->
  sum_list (map (fun l => occurrences l col) (labels_of p)) = length col.
Proof.
  destruct (full_credit_is_no_marker p) as (H0 & Hp & Hl & Hi).
  induction 1 as [|x col Hx _ IH]; [reflexivity|].
  unfold labels_of in *. cbn [map sum_list sum_list_with length] in IH |- *.
  unfold id in IH |- *. rewrite !occurrences_cons.
  repeat (apply elem_of_cons in Hx as [->|Hx]); [..|inversion Hx];
    repeat case_decide; try congruence; try discriminate; lia.
Qed.

(** X2.  When every cell of a phase column is one of the five labels of
    line 103, the five counts of the reindexed series add up to the number
    of targets: each target is in exactly one category. *)
Theorem X2_five_categories_partition_the_targets (p : phase) (df : frame string float) :
  Forall (fun v => v ∈ labels_of p) (column p df) ->
  sum_list (map (fun l => phase_count_ser p df !!! l) (labels_of p)) = length (index df).
Proof.
  intros Hvoc. rewrite length_index, <- (length_column p df).
  rewrite <- (labelled_cells_make_up_column p (column p df) Hvoc).
  f_equal. apply map_ext_in. intros l Hl.
  apply phase_count_ser_lookup. apply list_elem_of_In. exact Hl.
Qed.

Lemma X2_witness_three_targets :
  sum_list (map (fun l => phase_count_ser Phase1 (Sample.frame_of Sample.thirds) !!! l)
                (labels_of Phase1))
  = length (index (Sample.frame_of Sample.thirds)).
Proof.
  apply (X2_five_categories_partition_the_targets Phase1 (Sample.frame_of Sample.thirds)).
  vm_compute. repeat constructor.
Defined.

(** X3.  For every label and frame, line 119-121's total is the number of
    cells with that label in the five phase columns together when there is
    at least one such cell, and a KeyError when there is none. *)
Theorem X3_total_counts_cells_or_raises (label : string) (df : frame string float) :
  (cells_with label df <> 0 -> total_of label df = Returns (cells_with label df)) /\
  (cells_with label df = 0 -> total_of label df = Raises (Uncaught "KeyError")).
Proof.
  rewrite total_of_cells. split; intros H.
  - destruct (cells_with label df); [contradiction|reflexivity].
  - rewrite H. reflexivity.
Qed.

Lemma X3_witness_three_targets :
  total_of "Too Late" (Sample.frame_of Sample.thirds) = Returns 1 /\
  total_of "Too Late" (Sample.frame_of [Sample.full_marks]) = Raises (Uncaught "KeyError").
Proof.
  split.
  - apply (X3_total_counts_cells_or_raises "Too Late" (Sample.frame_of Sample.thirds)).
    vm_compute. discriminate.
  - apply (X3_total_counts_cells_or_raises "Too Late" (Sample.frame_of [Sample.full_marks])).
    vm_compute. reflexivity.
Defined.

(** X4.  The statistics section gives a report exactly when the table has
    at least one penalized, one late and one invalid cell; then the three
    totals of the report are the numbers of such cells.  In every other
    case it raises a KeyError, and it raises nothing else. *)
Theorem X4_report_needs_all_three_categories (dt : datetime) (df : frame string float) :
  ((exists r, stats dt df = Returns r) <->
   cells_with "Penalized" df <> 0 /\ cells_with "Too Late" df <> 0 /\
   cells_with "Invalid" df <> 0) /\
  (forall r, stats dt df = Returns r ->
     total_penalized r = cells_with "Penalized" df /\
     total_late r = cells_with "Too Late" df /\
     total_invalid r = cells_with "Invalid" df) /\
  (forall e, stats dt df = Raises e -> e = Uncaught "KeyError").
Proof.
  rewrite stats_cases.
  destruct (cells_with "Penalized" df) as [|a];
    destruct (cells_with "Too Late" df) as [|b];
    destruct (cells_with "Invalid" df) as [|c];
    (split; [split; [intros [r Hr]; try discriminate; repeat split; discriminate
                    |intros (H1 & H2 & H3); try contradiction; eauto]
            |split; [intros r Hr; try discriminate; injection Hr as <-; repeat split
                    |intros e He; try discriminate; injection He as <-; reflexivity]]).
Qed.

Lemma X4_witness_three_targets :
  exists r, stats Sample.when (Sample.frame_of Sample.thirds) = Returns r.
Proof.
  apply (X4_report_needs_all_three_categories Sample.when (Sample.frame_of Sample.thirds)).
  vm_compute. repeat split; discriminate.
Defined.

(** X5.  In every report the script writes, each of the three totals is the
    sum of the corresponding per-phase lines: the two parts of the report
    agree. *)
Theorem X5_totals_agree_with_phase_lines (dt : datetime) (df : frame string float) (r : report) :
  stats dt df = Returns r ->
  total_penalized r = sum_list (map (fun pl => penalized (snd pl)) (per_phase r)) /\
  total_late r = sum_list (map (fun pl => too_late (snd pl)) (per_phase r)) /\
  total_invalid r = sum_list (map (fun pl => invalid (snd pl)) (per_phase r)).
Proof.
  rewrite stats_cases.
  destruct (cells_with "Penalized" df) as [|a] eqn:Ea; [discriminate|].
  destruct (cells_with "Too Late" df) as [|b] eqn:Eb; [discriminate|].
  destruct (cells_with "Invalid" df) as [|c] eqn:Ec; [discriminate|].
  intros [= <-]. cbn [total_penalized total_late total_invalid per_phase].
  rewrite <- Ea, <- Eb, <- Ec. unfold cells_with, phases.
  cbn [map sum_list sum_list_with snd]. rewrite !phase_stats_occurrences.
  cbn [penalized too_late invalid]. unfold id. repeat split; lia.
Qed.

Lemma X5_witness_three_targets :
  exists r,
    stats Sample.when (Sample.frame_of Sample.thirds) = Returns r /\
    total_penalized r = sum_list (map (fun pl => penalized (snd pl)) (per_phase r)).
Proof.
  destruct (stats Sample.when (Sample.frame_of Sample.thirds)) as [r|e] eqn:E.
  - exists r. split; [reflexivity|].
    apply (X5_totals_agree_with_phase_lines Sample.when (Sample.frame_of Sample.thirds) r E).
  - vm_compute in E. discriminate.
Defined.

(** ** The run as a whole *)

(** X6.  Whatever the network and the libraries answer, a run that aborts
    - by an exit of the script or by an exception of the fetch, of the
    table reader, of the score conversion, of the time stamp or of the
    totals - has written no file: every step that can abort comes before
    line 132.  (The plotting and saving calls are taken to succeed.) *)
Theorem X6_aborted_run_has_written_nothing (w : world) (u : string) (e : abort) (st : state) :
  main w u = (Raises e, st) -> files st = [].
Proof.
  unfold main, script, bind at 1.
  destruct (String.eqb u "INSERT URL HERE"); [intros [= _ <-]; reflexivity|].
  unfold ret at 1, bind at 1, fetch, call at 1.
  destruct (urlopen w u) as [html|e1]; [|intros [= _ <-]; reflexivity].
  unfold after_fetch, bind at 1, validate.
  destruct (Text.contains title_marker html); [|intros [= _ <-]; reflexivity].
  unfold ret at 1, bind at 1, call at 1.
  destruct (read_html w html) as [rows|e2]; [|intros [= _ <-]; reflexivity].
  unfold bind at 1, call at 1.
  destruct (load (float_str w) rows) as [df|e3]; [|intros [= _ <-]; reflexivity].
  unfold bind at 1, assign_df, initial. cbn [files].
  unfold after_load, bind at 1, updated_stamp.
  destruct (Text.search_group "updated: " " (updated" html) as [stamp|];
    [|intros [= _ <-]; reflexivity].
  unfold ret at 1, bind at 1, call at 1.
  destruct (strptime w stamp) as [dt|e4]; [|intros [= _ <-]; reflexivity].
  rewrite outputs_run. destruct (stats dt df); [discriminate|].
  intros [= _ <-]. reflexivity.
Qed.

Lemma X6_witness_no_invalid_cell :
  files (snd (main (Sample.world_of (Returns Sample.page) [Sample.full_marks]) url)) = [].
Proof.
  apply (X6_aborted_run_has_written_nothing
           (Sample.world_of (Returns Sample.page) [Sample.full_marks]) url
           (Uncaught "KeyError")).
  vm_compute. reflexivity.
Defined.

(** X7.  With the placeholder left in place of the URL the run ends at line
    37 with the message that asks for the URL, whatever the world would
    have answered: nothing is fetched and nothing is written. *)
Theorem X7_placeholder_url_exits_first (w : world) :
  main w "INSERT URL HERE" = (Raises (SystemExit missing_url_message), initial) /\
  (forall w', main w' "INSERT URL HERE" = main w "INSERT URL HERE").
Proof. split; reflexivity. Qed.

(** ** From the table to the frame (lines 68-80) *)

Lemma score_astype_float_cases {C} (df : frame C (option float)) :
  match score_astype_float df with
  | Returns df' =>
      index df' = index df /\
      (forall p, column p df' = column p df) /\
      map Some (scores df') = map (fun ir => Score (snd ir)) df
  | Raises e =>
      e = Uncaught "ValueError" /\ Exists (fun ir => Score (snd ir) = None) df
  end.
Proof.
  induction df as [|[i r] df IH]; cbn [score_astype_float].
  - repeat split.
  - destruct (Score r) as [q|] eqn:Hq.
    + destruct (score_astype_float df) as [t|e].
      * destruct IH as (Hi & Hc & Hs). split; [|split].
        -- unfold index in *. rewrite !fmap_cons. cbn [fst]. f_equal. exact Hi.
        -- intros p. specialize (Hc p). unfold column in *. cbn [map snd].
           rewrite Hc. f_equal; try (destruct p; reflexivity).
        -- unfold scores in *. cbn [map snd Score map_row]. rewrite Hq. f_equal. exact Hs.
      * destruct IH as [-> Hex]. split; [reflexivity|]. apply Exists_cons_tl. exact Hex.
    + split; [reflexivity|]. apply Exists_cons_hd. exact Hq.
Qed.

Lemma column_normalize {S} (fs : Q -> string) (p : phase) (df : frame cell S) :
  column p (normalize fs df) = map (fun ir => normalize_cell fs p (get p (snd ir))) df.
Proof.
  unfold column, normalize. rewrite List.map_map. apply map_ext.
  intros [i r]. cbn [snd]. apply get_normalize_row.
Qed.

Lemma map_rows_with_range_index {C S B} (g : row C S -> B) (rows : list (row C S)) :
  map (fun ir => g (snd ir)) (with_range_index rows) = map g rows.
Proof.
  unfold with_range_index.
  rewrite <- (List.map_map snd g). f_equal.
  change (map snd) with (fmap (M:=list) (@snd nat (row C S))).
  apply snd_zip. rewrite length_seq. reflexivity.
Qed.

(** X10.  A page that is fetched, has the title and a table without any
    row never gets a report: the frame is empty, the total of line 119
    raises a KeyError, and no file is written (the time stamp being there
    and well formed). *)
Theorem X10_empty_table_raises_KeyError (w : world) (u html stamp : string) (dt : datetime) :
  u <> "INSERT URL HERE" ->
  urlopen w u = Returns html ->
  Text.contains title_marker html = true ->
  read_html w html = Returns [] ->
  Text.search_group "updated: " " (updated" html = Some stamp ->
  strptime w stamp = Returns dt ->
  main w u = (Raises (Uncaught "KeyError"), State [] []).
Proof.
  intros Hu Hopen Htitle Hread Hstamp Hdt.
  rewrite (main_fetched w u html Hu Hopen).
  rewrite (after_fetch_loaded w html [] [] initial Htitle Hread eq_refl).
  unfold after_load, bind at 1, updated_stamp. rewrite Hstamp.
  unfold ret at 1, bind at 1, call at 1. rewrite Hdt.
  rewrite outputs_run. reflexivity.
Qed.

Lemma X10_witness_empty_table :
  main (Sample.world_of (Returns Sample.page) []) url
    = (Raises (Uncaught "KeyError"), State [] []).
Proof.
  apply (X10_empty_table_raises_KeyError _ url Sample.page "Mon Nov  6 10:15:00 2023"
           Sample.when).
  - discriminate.
  - reflexivity.
  - reflexivity.
  - reflexivity.
  - reflexivity.
  - reflexivity.
Defined.

(** ** The furthest-phase loop, once more (lines 171-180) *)

Lemma load_NoDup (fs : Q -> string) (rows : list raw_row) (df : frame string float) :
  load fs rows = Returns df -> NoDup (index df).
Proof. intros H. rewrite (load_index fs rows df H). apply NoDup_seq. Qed.

Lemma frame_of_NoDup (rows : list raw_row) : NoDup (index (Sample.frame_of rows)).
Proof.
  unfold Sample.frame_of.
  destruct (load Sample.float_str rows) as [df|e] eqn:E.
  - exact (load_NoDup Sample.float_str rows df E).
  - constructor.
Qed.

(** X11.  On a frame whose index has no repeated label - the script's
    frame is one - the counts the loop appends and the rows it leaves add
    up to the number of rows, whatever phases it goes through: no target
    is counted twice, and the counts never add up to more than the number
    of targets. *)
Theorem X11_counts_and_rest_make_up_the_frame (ps : list phase) (df : frame string float) :
  NoDup (index df) ->
  sum_list (fst (furthest ps df)) + length (snd (furthest ps df)) = length df /\
  sum_list (fst (furthest ps df)) <= length df.
Proof.
  intros Hnd. pose proof (furthest_counts_and_rest ps df Hnd). split; lia.
Qed.

Lemma X11_witness_three_targets :
  sum_list (fst (furthest (rev phases) (Sample.frame_of Sample.thirds)))
  + length (snd (furthest (rev phases) (Sample.frame_of Sample.thirds)))
  = length (Sample.frame_of Sample.thirds) /\
  sum_list (fst (furthest (rev phases) (Sample.frame_of Sample.thirds)))
  <= length (Sample.frame_of Sample.thirds).
Proof.
  apply (X11_counts_and_rest_make_up_the_frame (rev phases) (Sample.frame_of Sample.thirds)).
  apply frame_of_NoDup.
Defined.

(** X12.  On such a frame the rows still in [scoreboard_df] after the loop
    are, in their old order, exactly the rows that pass the test of line
    176 for none of the phases. *)
Theorem X12_rest_is_who_passed_nothing (ps : list phase) (df : frame string float) :
  NoDup (index df) ->
  snd (furthest ps df) = filter (fun ir => Forall (fun p => ~ passes p ir) ps) df.
Proof. intros Hnd. exact (furthest_rest ps df Hnd). Qed.

Lemma X12_witness_one_penalized_target :
  snd (furthest (rev phases) (Sample.frame_of [Sample.penalized_once]))
  = filter (fun ir => Forall (fun p => ~ passes p ir) (rev phases))
           (Sample.frame_of [Sample.penalized_once]).
Proof.
  apply (X12_rest_is_who_passed_nothing (rev phases) (Sample.frame_of [Sample.penalized_once])).
  apply frame_of_NoDup.
Defined.

Lemma furthest_counts_of (ps before : list phase) (df : frame string float) :
  NoDup (index df) ->
  fst (furthest ps (filter (fun ir => Forall (fun q => ~ passes q ir) before) df))
  = counts_of before ps df.
Proof.
  intros Hnd. revert before. induction ps as [|p ps IH]; intros before; [reflexivity|].
  cbn [furthest counts_of fst].
  assert (Hb : NoDup (index (filter (fun ir => Forall (fun q => ~ passes q ir) before) df)))
    by (apply index_filter_NoDup; exact Hnd).
  f_equal.
  - unfold passed_phase_index, counted. rewrite length_index, list_filter_filter.
    reflexivity.
  - rewrite drop_passed by exact Hb. rewrite list_filter_filter, <- IH.
    do 2 f_equal. apply filter_agree. intros x _. rewrite Forall_cons. reflexivity.
Qed.

Lemma filter_everything {A} (P : A -> Prop) `{!forall x, Decision (P x)} (l : list A) :
  Forall P l -> filter P l = l.
Proof.
  induction 1 as [|x l Hx _ IH]; [reflexivity|].
  rewrite filter_cons_True by exact Hx. f_equal. exact IH.
Qed.

Lemma filter_nothing {A} (P : A -> Prop) `{!forall x, Decision (P x)} (l : list A) :
  Forall (fun x => ~ P x) l -> filter P l = [].
Proof.
  induction 1 as [|x l Hx _ IH]; [reflexivity|].
  rewrite filter_cons_False by exact Hx. exact IH.
Qed.

(** X13.  On such a frame each count of the loop is the number of rows
    that pass the test for that phase and for none of the later phases:
    a target is put under the last phase whose test it passes. *)
Theorem X13_each_target_under_its_last_passed_phase (df : frame string float) :
  NoDup (index df) ->
  fst (furthest (rev phases) df)
  = [counted Phase5 [] df;
     counted Phase4 [Phase5] df;
     counted Phase3 [Phase4; Phase5] df;
     counted Phase2 [Phase3; Phase4; Phase5] df;
     counted Phase1 [Phase2; Phase3; Phase4; Phase5] df].
Proof.
  intros Hnd.
  rewrite <- (filter_everything (fun ir => Forall (fun q => ~ passes q ir) []) df) at 1
    by (apply Forall_forall; intros; constructor).
  rewrite (furthest_counts_of (rev phases) [] df Hnd). reflexivity.
Qed.

Lemma X13_witness_three_targets :
  fst (furthest (rev phases) (Sample.frame_of Sample.thirds))
  = [counted Phase5 [] (Sample.frame_of Sample.thirds);
     counted Phase4 [Phase5] (Sample.frame_of Sample.thirds);
     counted Phase3 [Phase4; Phase5] (Sample.frame_of Sample.thirds);
     counted Phase2 [Phase3; Phase4; Phase5] (Sample.frame_of Sample.thirds);
     counted Phase1 [Phase2; Phase3; Phase4; Phase5] (Sample.frame_of Sample.thirds)].
Proof.
  apply (X13_each_target_under_its_last_passed_phase (Sample.frame_of Sample.thirds)).
  apply frame_of_NoDup.
Defined.

(** ** The bar chart (lines 183-211) *)

Lemma furthest_nobody_passes (ps : list phase) (df : frame string float) :
  Forall (fun ir => Forall (fun p => ~ passes p ir) ps) df ->
  furthest ps df = (map (fun _ => 0) ps, df).
Proof.
  induction ps as [|p ps IH]; intros Hall; [reflexivity|].
  cbn [furthest map].
  assert (Hnone : passed_phase_index p df = []).
  { unfold passed_phase_index, index. rewrite filter_nothing; [reflexivity|].
    eapply Forall_impl; [exact Hall|]. intros ir Hir. apply Forall_cons in Hir. tauto. }
  rewrite Hnone.
  assert (Hsame : drop_index [] df = df).
  { unfold drop_index. apply filter_everything, Forall_forall. intros ir _. set_solver. }
  rewrite Hsame, IH; [reflexivity|].
  eapply Forall_impl; [exact Hall|]. intros ir Hir. apply Forall_cons in Hir. tauto.
Qed.

(** X14.  When no row passes the test of line 176 for any phase - a table
    without a single full-credit cell, penalized passes or not - the loop
    removes no row and every count is 0, so that the percentage computed
    for every bar is 0 / 0, NaN. *)
Theorem X14_nobody_passes_gives_NaN_bars (df : frame string float) :
  Forall (fun ir => Forall (fun p => ~ passes p ir) phases) df ->
  furthest (rev phases) df = ([0; 0; 0; 0; 0], df) /\
  bars_labels (rev (fst (furthest (rev phases) df))) = map (fun p => Bar p nan 0) phases.
Proof.
  intros Hall.
  assert (H : furthest (rev phases) df = (map (fun _ => 0) (rev phases), df)).
  { apply furthest_nobody_passes. eapply Forall_impl; [exact Hall|].
    intros ir Hir. apply Forall_rev. exact Hir. }
  rewrite H. split; reflexivity.
Qed.

Lemma X14_witness_one_penalized_target :
  furthest (rev phases) (Sample.frame_of [Sample.mixed])
    = ([0; 0; 0; 0; 0], Sample.frame_of [Sample.mixed]) /\
  bars_labels (rev (fst (furthest (rev phases) (Sample.frame_of [Sample.mixed]))))
    = map (fun p => Bar p nan 0) phases.
Proof.
  apply (X14_nobody_passes_gives_NaN_bars (Sample.frame_of [Sample.mixed])).
  repeat constructor; vm_compute; discriminate.
Defined.

(** ** The two searches in the page (lines 44 and 87) *)

Section SearchFacts.

Local Open Scope string_scope.

Lemma append_cons (c : ascii) (a b : string) : String c a +:+ b = String c (a +:+ b).
Proof. reflexivity. Qed.

Lemma append_assoc (a b c : string) : (a +:+ b) +:+ c = a +:+ (b +:+ c).
Proof.
  induction a as [|x a IH]; [reflexivity|].
  rewrite !append_cons. f_equal. exact IH.
Qed.

Lemma starts_with_spec (p s : string) :
  Text.starts_with p s = true <-> exists b, s = p +:+ b.
Proof.
  revert s. induction p as [|a p IH]; intros s.
  - split; [intros _; exists s; reflexivity|reflexivity].
  - destruct s as [|c s]; cbn [Text.starts_with].
    + split; [discriminate|]. intros [b Hb]. rewrite append_cons in Hb. discriminate.
    + destruct (Ascii.eqb_spec a c) as [->|Hne].
      * rewrite IH. split; intros [b Hb]; exists b.
        -- rewrite append_cons. f_equal. exact Hb.
        -- rewrite append_cons in Hb. injection Hb as ->. reflexivity.
      * split; [discriminate|]. intros [b Hb]. rewrite append_cons in Hb.
        injection Hb as Hc _. congruence.
Qed.

Lemma contains_spec (p s : string) :
  Text.contains p s = true <-> exists a b, s = a +:+ p +:+ b.
Proof.
  induction s as [|c s IH].
  - cbn [Text.contains]. rewrite orb_false_r, starts_with_spec. split.
    + intros [b Hb]. exists "", b. exact Hb.
    + intros (a & b & Hab). destruct a as [|x a]; [exists b; exact Hab|].
      rewrite append_cons in Hab. discriminate.
  - rewrite contains_cons, orb_true_iff, starts_with_spec, IH. split.
    + intros [[b Hb]|(a & b & Hab)].
      * exists "", b. exact Hb.
      * exists (String c a), b. rewrite append_cons. f_equal. exact Hab.
    + intros (a & b & Hab). destruct a as [|x a].
      * left. exists b. exact Hab.
      * right. rewrite append_cons in Hab. injection Hab as _ Hs. exists a, b. exact Hs.
Qed.

(** X18.  The title check lets the run go on exactly when the exact marker
    [<title>Attack Lab Scoreboard</title>] stands somewhere in the page;
    for every other page it ends the run with the exit of line 45.  It
    changes nothing. *)
Theorem X18_title_check_is_a_substring_test (html : string) (st : state) :
  ((exists a b, html = a +:+ title_marker +:+ b) -> validate html st = (Returns tt, st)) /\
  (~ (exists a b, html = a +:+ title_marker +:+ b) ->
   validate html st = (Raises (SystemExit wrong_page_message), st)).
Proof.
  unfold validate. rewrite <- contains_spec.
  destruct (Text.contains title_marker html); split; intros H;
    try reflexivity; try discriminate. exfalso. apply H. reflexivity.
Qed.

Lemma X18_witness_sample_page :
  validate Sample.page initial = (Returns tt, initial) /\
  validate "" initial = (Raises (SystemExit wrong_page_message), initial).
Proof.
  split.
  - apply (X18_title_check_is_a_substring_test Sample.page initial).
    exists "<html><head>".
    exists ("</head><body>" +:+
            "<h2>Attack Lab Scoreboard</h2>This page contains the latest information. " +:+
            "Last updated: Mon Nov  6 10:15:00 2023 (updated every 20 secs)</body></html>").
    reflexivity.
  - apply (X18_title_check_is_a_substring_test "" initial).
    intros (a & b & Hab). destruct a; discriminate.
Defined.

Lemma drop_after_prefix (p s : string) :
  Text.starts_with p s = true -> s = p +:+ Text.drop (String.length p) s.
Proof.
  revert s. induction p as [|a p IH]; intros s H; [reflexivity|].
  destruct s as [|c s]; cbn [Text.starts_with] in H; [discriminate|].
  destruct (Ascii.eqb_spec a c) as [->|]; [|discriminate].
  cbn [String.length Text.drop]. rewrite append_cons. f_equal. apply IH. exact H.
Qed.

Lemma line_of_prefix (s : string) : exists rest, s = Text.line_of s +:+ rest.
Proof.
  induction s as [|c s [rest IH]]; [exists ""; reflexivity|].
  cbn [Text.line_of]. destruct (Ascii.eqb c "010").
  - exists (String c s). reflexivity.
  - exists rest. rewrite append_cons. f_equal. exact IH.
Qed.

Lemma line_of_one_line (s : string) : Text.contains (String "010" "") (Text.line_of s) = false.
Proof.
  induction s as [|c s IH]; [reflexivity|].
  cbn [Text.line_of]. destruct (Ascii.eqb c "010") eqn:E; [reflexivity|].
  rewrite contains_cons, IH, orb_false_r. cbn [Text.starts_with].
  rewrite Ascii.eqb_sym, E. reflexivity.
Qed.

Lemma contains_prefix (p a b : string) :
  Text.contains p (a +:+ b) = false -> Text.contains p a = false.
Proof.
  intros H. destruct (Text.contains p a) eqn:E; [|reflexivity].
  apply contains_spec in E as (x & y & ->).
  assert (Hc : Text.contains p ((x +:+ p +:+ y) +:+ b) = true).
  { apply contains_spec. exists x, (y +:+ b). rewrite !append_assoc. reflexivity. }
  congruence.
Qed.

Lemma greedy_before_sound (lit l g : string) :
  Text.greedy_before lit l = Some g -> exists b, l = g +:+ lit +:+ b.
Proof.
  revert g. induction l as [|c l IH]; intros g; cbn [Text.greedy_before].
  - destruct (Text.starts_with lit "") eqn:E; [|discriminate].
    intros [= <-]. apply starts_with_spec in E. exact E.
  - destruct (Text.greedy_before lit l) as [g'|].
    + intros [= <-]. destruct (IH g' eq_refl) as [b Hb]. exists b.
      rewrite append_cons. f_equal. exact Hb.
    + destruct (Text.starts_with lit (String c l)) eqn:E; [|discriminate].
      intros [= <-]. apply starts_with_spec in E. exact E.
Qed.

Lemma search_group_sound (pre post s g : string) :
  Text.search_group pre post s = Some g ->
  (exists a b, s = a +:+ pre +:+ g +:+ post +:+ b) /\
  Text.contains (String "010" "") g = false.
Proof.
  assert (Hhere : forall t,
    (if Text.starts_with pre t
     then Text.greedy_before post (Text.line_of (Text.drop (String.length pre) t))
     else None) = Some g ->
    (exists a b, t = a +:+ pre +:+ g +:+ post +:+ b) /\
    Text.contains (String "010" "") g = false).
  { intros t H. destruct (Text.starts_with pre t) eqn:Ep; [|discriminate].
    apply greedy_before_sound in H as [b Hb].
    destruct (line_of_prefix (Text.drop (String.length pre) t)) as [rest Hrest].
    split.
    - exists "", (b +:+ rest). rewrite (drop_after_prefix pre t Ep) at 1.
      rewrite Hrest at 1. rewrite Hb, !append_assoc. reflexivity.
    - apply (contains_prefix _ g (post +:+ b)). rewrite <- Hb. apply line_of_one_line. }
  induction s as [|c s IH]; cbn [Text.search_group]; cbv zeta.
  - destruct (if Text.starts_with pre "" then _ else None) as [g0|] eqn:E; [|discriminate].
    intros [= <-]. apply Hhere. exact E.
  - destruct (if Text.starts_with pre (String c s) then _ else None) as [g0|] eqn:E.
    + intros [= <-]. apply Hhere. exact E.
    + intros H. destruct (IH H) as [(a & b & Hab) Hline]. split; [|exact Hline].
      exists (String c a), b. rewrite append_cons. f_equal. exact Hab.
Qed.

(** X19.  The time stamp line 87 hands to [strptime] is text of the page:
    it stands between ["updated: "] and [" (updated"], and it has no line
    break in it.  Finding it changes nothing. *)
Theorem X19_stamp_stands_between_the_markers (html stamp : string) (st st' : state) :
  updated_stamp html st = (Returns stamp, st') ->
  st' = st /\
  (exists a b, html = a +:+ "updated: " +:+ stamp +:+ " (updated" +:+ b) /\
  Text.contains (String "010" "") stamp = false.
Proof.
  unfold updated_stamp.
  destruct (Text.search_group "updated: " " (updated" html) as [g|] eqn:E; [|discriminate].
  intros [= <- <-]. split; [reflexivity|]. apply search_group_sound. exact E.
Qed.

Lemma X19_witness_sample_page :
  (exists a b, Sample.page = a +:+ "updated: " +:+ "Mon Nov  6 10:15:00 2023"
                               +:+ " (updated" +:+ b) /\
  Text.contains (String "010" "") "Mon Nov  6 10:15:00 2023" = false.
Proof.
  apply (X19_stamp_stands_between_the_markers Sample.page "Mon Nov  6 10:15:00 2023"
           initial initial).
  reflexivity.
Defined.

End SearchFacts.

(** ** Normalisation and counting together *)

Lemma load_column (fs : Q -> string) (rows : list raw_row) (df : frame string float) (p : phase) :
  load fs rows = Returns df ->
  column p df = map (fun r => normalize_cell fs p (get p r)) rows.
Proof.
  intros Hload. unfold load in Hload.
  pose proof (score_astype_float_cases (normalize fs (with_range_index rows))) as H.
  rewrite Hload in H. destruct H as (_ & Hc & _).
  rewrite Hc, column_normalize.
  apply (map_rows_with_range_index (fun r => normalize_cell fs p (get p r))).
Qed.

Lemma scoreboard_cell_gets_a_label (fs : Q -> string) (p : phase) (c : cell) :
  equals_penalized p c = true \/
  c ∈ [CStr (points_per_phase p); CStr "0"; CStr "Too Late"; CStr "Invalid"] ->
  normalize_cell fs p c ∈ labels_of p.
Proof.
  intros [Hpen|Hin].
  - rewrite (normalize_cell_penalized fs p c Hpen). unfold labels_of. set_solver.
  - repeat (apply elem_of_cons in Hin as [->|Hin]); [..|inversion Hin];
      destruct p; vm_compute; set_solver.
Qed.

(** X20.  When, in a phase column of the table, every cell is the
    penalized score (as a number or as text) or one of the texts a
    scoreboard shows - the full-credit score, ["0"], ["Too Late"],
    ["Invalid"] - then every cell of the column of the frame is one of the
    five labels of line 103, and the five counts of that phase add up to
    the number of rows of the table. *)
Theorem X20_scoreboard_cells_fall_into_the_five_categories
  (fs : Q -> string) (rows : list raw_row) (df : frame string float) (p : phase) :
  load fs rows = Returns df ->
  Forall (fun r => equals_penalized p (get p r) = true \/
                   get p r ∈ [CStr (points_per_phase p); CStr "0"; CStr "Too Late";
                              CStr "Invalid"]) rows ->
  Forall (fun v => v ∈ labels_of p) (column p df) /\
  sum_list (map (fun l => phase_count_ser p df !!! l) (labels_of p)) = length rows.
Proof.
  intros Hload Hrows.
  assert (Hcol : Forall (fun v => v ∈ labels_of p) (column p df)).
  { rewrite (load_column fs rows df p Hload). apply Forall_forall. intros v Hv.
    apply list_elem_of_In, in_map_iff in Hv as (r & <- & Hr).
    apply scoreboard_cell_gets_a_label.
    rewrite Forall_forall in Hrows. apply Hrows, list_elem_of_In. exact Hr. }
  split; [exact Hcol|].
  rewrite <- (load_length fs rows df Hload), <- (length_column p df).
  rewrite <- (labelled_cells_make_up_column p (column p df) Hcol).
  f_equal. apply map_ext_in. intros l Hl.
  apply phase_count_ser_lookup. apply list_elem_of_In. exact Hl.
Qed.

Lemma X20_witness_three_targets :
  Forall (fun v => v ∈ labels_of Phase1) (column Phase1 (Sample.frame_of Sample.thirds)) /\
  sum_list (map (fun l => phase_count_ser Phase1 (Sample.frame_of Sample.thirds) !!! l)
                (labels_of Phase1))
  = length Sample.thirds.
Proof.
  apply (X20_scoreboard_cells_fall_into_the_five_categories Sample.float_str Sample.thirds).
  - vm_compute. reflexivity.
  - repeat constructor; (left; reflexivity) || (right; set_solver).
Defined.

(** ** When the run succeeds *)

(** X21.  The run ends well exactly when the URL is not the placeholder,
    the page is fetched and contains the title marker, the table is read,
    every score is a number, the line of the last update is there and
    parses, and the phase columns hold at least one penalized, one late and
    one invalid cell. *)
Theorem X21_when_the_run_succeeds (w : world) (u : string) :
  (exists st, main w u = (Returns tt, st)) <->
  u <> "INSERT URL HERE" /\
  exists html rows df stamp dt,
    urlopen w u = Returns html /\
    Text.contains title_marker html = true /\
    read_html w html = Returns rows /\
    load (float_str w) rows = Returns df /\
    Text.search_group "updated: " " (updated" html = Some stamp /\
    strptime w stamp = Returns dt /\
    cells_with "Penalized" df <> 0 /\ cells_with "Too Late" df <> 0 /\
    cells_with "Invalid" df <> 0.
Proof.
  split.
  - intros [st Hmain]. revert Hmain. unfold main, script, bind at 1.
    destruct (String.eqb_spec u "INSERT URL HERE") as [|Hu]; [discriminate|].
    unfold ret at 1, bind at 1, fetch, call at 1.
    destruct (urlopen w u) as [html|e] eqn:Hopen; [|discriminate].
    unfold after_fetch, bind at 1, validate.
    destruct (Text.contains title_marker html) eqn:Htitle; [|discriminate].
    unfold ret at 1, bind at 1, call at 1.
    destruct (read_html w html) as [rows|e] eqn:Hread; [|discriminate].
    unfold bind at 1, call at 1.
    destruct (load (float_str w) rows) as [df|e] eqn:Hload; [|discriminate].
    unfold bind at 1, assign_df, initial. cbn [files].
    unfold after_load, bind at 1, updated_stamp.
    destruct (Text.search_group "updated: " " (updated" html) as [stamp|] eqn:Hstamp;
      [|discriminate].
    unfold ret at 1, bind at 1, call at 1.
    destruct (strptime w stamp) as [dt|e] eqn:Hdt; [|discriminate].
    rewrite outputs_run, stats_cases.
    destruct (cells_with "Penalized" df) eqn:Ea; [discriminate|].
    destruct (cells_with "Too Late" df) eqn:Eb; [discriminate|].
    destruct (cells_with "Invalid" df) eqn:Ec; [discriminate|].
    intros _. split; [exact Hu|]. exists html, rows, df, stamp, dt.
    rewrite Ea, Eb, Ec. repeat split; auto.
  - intros (Hu & html & rows & df & stamp & dt & Hopen & Htitle & Hread & Hload & Hstamp
            & Hdt & Ha & Hb & Hc).
    rewrite (main_fetched w u html Hu Hopen).
    rewrite (after_fetch_loaded w html rows df initial Htitle Hread Hload).
    unfold after_load, bind at 1, updated_stamp. rewrite Hstamp.
    unfold ret at 1, bind at 1, call at 1. rewrite Hdt.
    cbn [files initial]. rewrite outputs_run, stats_cases.
    destruct (cells_with "Penalized" df); [contradiction|].
    destruct (cells_with "Too Late" df); [contradiction|].
    destruct (cells_with "Invalid" df); [contradiction|].
    eexists. reflexivity.
Qed.

Lemma X21_witness_three_targets :
  exists st, main (Sample.world_of (Returns Sample.page) Sample.thirds) url = (Returns tt, st).
Proof.
  apply (X21_when_the_run_succeeds (Sample.world_of (Returns Sample.page) Sample.thirds) url).
  split; [discriminate|].
  exists Sample.page, Sample.thirds, (Sample.frame_of Sample.thirds),
         "Mon Nov  6 10:15:00 2023", Sample.when.
  repeat split; try (vm_compute; reflexivity); vm_compute; discriminate.
Defined.

(** ** Worked values of the statistics *)

(** The arithmetic is that of floats: the mean of three scores of one tenth
    is above one tenth. *)
Example mean_of_three_tenths :
  PrimFloat.ltb (1 / 10)%float (series_mean [(1 / 10)%float; (1 / 10)%float; (1 / 10)%float])
  = true.
Proof. vm_compute. reflexivity. Qed.

(** A score that is NaN, an empty score cell, is left out of the statistics
    and still counts as a target. *)
Example nan_score_is_skipped :
  series_max [nan; 15%float] = 15%float /\
  series_min [nan; 15%float] = 15%float /\
  series_mean [nan; 15%float] = 15%float /\
  series_var [nan; 15%float] = nan /\
  total_targets <$> (match stats Sample.when
                             [(0, Row "Penalized" "Too Late" "Invalid" "0" "0" nan);
                              (1, Row "15" "0" "0" "0" "0" 15%float)] with
                     | Returns r => Some r
                     | Raises _ => None
                     end) = Some 2.
Proof. repeat split; vm_compute; reflexivity. Qed.

Example statistics_of_three_targets :
  standard (Sample.frame_of Sample.thirds)
  = StandardStats 65%float 15%float 50%float 39.25%float 626.6875%float
                  (PrimFloat.sqrt 626.6875%float).
Proof. vm_compute. reflexivity. Qed.
